(** * Tax calculation engine of the autonomous tax agent

    A shallow embedding of the two places of the repository that compute
    taxes:

    - [src/TaxCalculator.jsx]: the calculator component ([calculateTax] and
      the functions it dispatches to);
    - [src/unnamed/part_010] (second document): the income-tax edge function.

    JavaScript numbers are modelled by exact rationals ([Q]): every finite
    value the code computes is the rational the formulas denote, IEEE
    rounding is not modelled. The two places where the code leaves the finite
    numbers are written out: [Infinity] as the upper edge of the last bracket
    ([bound]) and a division by zero ([js_div]). *)

From Stdlib Require Import QArith Qround Lqa Lia ZArith List String Bool.
Import ListNotations.

Open Scope string_scope.
Open Scope list_scope.
Open Scope Q_scope.

(** ** Numbers *)

Module Num.

(** [a > b], [a <= b], [a >= b] of JavaScript, on finite numbers. *)
Definition gtb (a b : Q) : bool := negb (Qle_bool a b).
Definition leb (a b : Q) : bool := Qle_bool a b.
Definition geb (a b : Q) : bool := Qle_bool b a.

(** [Math.max(a, b)] and [Math.min(a, b)]. *)
Definition Math_max (a b : Q) : Q := if Qle_bool a b then b else a.
Definition Math_min (a b : Q) : Q := if Qle_bool a b then a else b.

(** [Math.round(x)]: the integer nearest to [x], ties towards +Infinity. *)
Definition Math_round (x : Q) : Q := inject_Z (Qfloor (x + (1 # 2))).

(** A number that may be [Infinity] (the [max] or [limit] of a bracket). *)
Inductive bound : Type :=
| Finite (q : Q)
| Infinity.

(** [Math.min(x, m)] for a finite [x]. *)
Definition min_bound (x : Q) (m : bound) : Q :=
  match m with
  | Finite q => Math_min x q
  | Infinity => x
  end.

(** [x <= m] for a finite [x]. *)
Definition leb_bound (x : Q) (m : bound) : bool :=
  match m with
  | Finite q => leb x q
  | Infinity => true
  end.

(** What [parseFloat] and [parseInt] return: a number or [NaN]. *)
Inductive parsed (A : Type) : Type :=
| NaN
| Parsed (x : A).
Arguments NaN {A}.
Arguments Parsed {A} x.

(** [parseFloat(s) || 0]: [NaN] and [0] are falsy. *)
Definition float_or_zero (p : parsed Q) : Q :=
  match p with
  | NaN => 0
  | Parsed q => if Qeq_bool q 0 then 0 else q
  end.

(** [parseInt(s) || 0]. *)
Definition int_or_zero (p : parsed Z) : Z :=
  match p with
  | NaN => 0%Z
  | Parsed z => if Z.eqb z 0 then 0%Z else z
  end.

(** [a / b]: [None] when [b] is zero, where JavaScript gives [NaN] or an
    infinity. *)
Definition js_div (a b : Q) : option Q :=
  if Qeq_bool b 0 then None else Some (a / b).

End Num.
Import Num.

(** ** Outcomes of a call

    A call of the calculator returns a value, throws (the [catch] of
    [calculateTax] turns that into an error result), or computes with a
    non-finite number, which the rational model does not follow. *)

Inductive outcome (A : Type) : Type :=
| Returns (a : A)
| Throws
| NotFinite.
Arguments Returns {A} a.
Arguments Throws {A}.
Arguments NotFinite {A}.

Definition bind {A B : Type} (o : outcome A) (k : A -> outcome B) : outcome B :=
  match o with
  | Returns a => k a
  | Throws => Throws
  | NotFinite => NotFinite
  end.

Notation "x <- o ;; k" := (bind o (fun x => k))
  (at level 61, o at next level, right associativity).

(** ** The calculator component, [src/TaxCalculator.jsx] *)

Module TaxCalculator.

(** One entry of a [brackets] table: [{ min, max, rate }], the rate in
    percent. *)
Record Bracket : Type := {
  min : Q;
  max : bound;
  rate : Q
}.

(** One entry pushed on [breakdown]. The [range] and [rate] labels are
    kept as the numbers they print. *)
Record BreakdownItem : Type := {
  range : Q * bound;
  rate_label : Q;
  taxableAmount : Q;
  tax : Q
}.

(** The form state; a numeric field holds what [parseFloat] (or [parseInt]
    for [dependents]) makes of its text. *)
Record FormData : Type := {
  income : parsed Q;
  maritalStatus : string;
  dependents : parsed Z;
  businessExpenses : parsed Q;
  vatAmount : parsed Q;
  vatRate : parsed Q;
  propertyValue : parsed Q;
  isFirstTimeBuyer : bool
}.

(** The object the three income-tax functions return. [allowances] is
    absent in the French result, [quotientFamilial] in the others, and
    [breakdown] in the generic one. *)
Record IncomeResult : Type := {
  grossIncome : Q;
  totalTax : Q;
  netIncome : Q;
  effectiveRate : Q;
  marginalRate : Q;
  allowances : option Q;
  quotientFamilial : option Q;
  breakdown : option (list BreakdownItem);
  jurisdiction : string;
  currency : string
}.

Record VATResult : Type := {
  netAmount : Q;
  vat_vatRate : Q;
  vat_vatAmount : Q;
  totalAmount : Q;
  vat_jurisdiction : string;
  vat_currency : string
}.

Record CorporateResult : Type := {
  grossProfit : Q;
  corp_businessExpenses : Q;
  taxableProfit : Q;
  corporateTaxRate : Q;
  corporateTax : Q;
  netProfit : Q;
  corp_jurisdiction : string;
  corp_currency : string
}.

Record PropertyResult : Type := {
  prop_propertyValue : Q;
  taxRate : Q;
  propertyTax : Q;
  prop_isFirstTimeBuyer : bool;
  prop_jurisdiction : string;
  prop_currency : string
}.

(** What [calculateTax] hands to [setResults]. *)
Inductive Results : Type :=
| IncomeResults (r : IncomeResult)
| VATResults (r : VATResult)
| CorporateResults (r : CorporateResult)
| PropertyResults (r : PropertyResult)
| ErrorResults (error : string)
| NotFiniteResults.

(** [income >= bracket.min && income <= bracket.max]. *)
Definition in_bracket (x : Q) (b : Bracket) : bool :=
  geb x (min b) && leb_bound x (max b).

(** [getMarginalRate]: the rate of the first bracket with
    [min <= income <= max], else [brackets[brackets.length - 1].rate],
    which throws on an empty table. *)
Definition getMarginalRate (x : Q) (brackets : list Bracket) : outcome Q :=
  match find (in_bracket x) brackets with
  | Some b => Returns (rate b)
  | None =>
      match nth_error brackets (List.length brackets - 1) with
      | Some b => Returns (rate b)
      | None => Throws
      end
  end.

(** The body of the [for (const bracket of brackets)] loop of
    [calculateMaltaIncomeTax] and [calculateFranceIncomeTax], on the pair
    of the two variables it updates. *)
Definition bracket_step (x : Q) (st : Q * list BreakdownItem) (bracket : Bracket)
  : Q * list BreakdownItem :=
  let '(tax, breakdown) := st in
  if gtb x (min bracket) then
    let taxableInThisBracket := min_bound x (max bracket) - min bracket + 1 in
    let taxForBracket := taxableInThisBracket * (rate bracket / 100) in
    (tax + taxForBracket,
     if gtb taxableInThisBracket 0 then
       breakdown ++ [ {| range := (min bracket, max bracket);
                         rate_label := rate bracket;
                         taxableAmount := taxableInThisBracket;
                         tax := taxForBracket |} ]
     else breakdown)
  else st.

Definition bracket_loop (x : Q) (brackets : list Bracket) : Q * list BreakdownItem :=
  fold_left (bracket_step x) brackets (0, []).

Definition malta_brackets : list Bracket :=
  [ {| min := 0;     max := Finite 9100;  rate := 0 |};
    {| min := 9101;  max := Finite 14500; rate := 15 |};
    {| min := 14501; max := Finite 19500; rate := 25 |};
    {| min := 19501; max := Finite 60000; rate := 25 |};
    {| min := 60001; max := Infinity;     rate := 35 |} ].

Definition calculateMaltaIncomeTax (income : Q) (isMarried : bool) (dependents : Z)
  : outcome IncomeResult :=
  let brackets := malta_brackets in
  let '(tax, breakdown) := bracket_loop income brackets in
  let allowances := (if isMarried then 600 else 0) + inject_Z dependents * 300 in
  let finalTax := Math_max 0 (tax - allowances) in
  let effectiveRate := if gtb income 0 then (finalTax / income) * 100 else 0 in
  marginal <- getMarginalRate income brackets ;;
  Returns {| grossIncome := income;
             totalTax := finalTax;
             netIncome := income - finalTax;
             effectiveRate := effectiveRate;
             marginalRate := marginal;
             allowances := Some allowances;
             quotientFamilial := None;
             breakdown := Some breakdown;
             jurisdiction := "Malta";
             currency := "EUR" |}.

Definition france_brackets : list Bracket :=
  [ {| min := 0;      max := Finite 10777;  rate := 0 |};
    {| min := 10778;  max := Finite 27478;  rate := 11 |};
    {| min := 27479;  max := Finite 78570;  rate := 30 |};
    {| min := 78571;  max := Finite 168994; rate := 41 |};
    {| min := 168995; max := Infinity;      rate := 45 |} ].

(** [parts]: 1, or 2 when married, plus half a part per dependent. *)
Definition quotient_parts (isMarried : bool) (dependents : Z) : Q :=
  (if isMarried then 2 else 1) + inject_Z dependents * (1 # 2).

Definition calculateFranceIncomeTax (income : Q) (isMarried : bool) (dependents : Z)
  : outcome IncomeResult :=
  let brackets := france_brackets in
  let parts := quotient_parts isMarried dependents in
  match js_div income parts with
  | None => NotFinite
  | Some quotientIncome =>
      let '(tax, breakdown) := bracket_loop quotientIncome brackets in
      let finalTax := tax * parts in
      let effectiveRate := if gtb income 0 then (finalTax / income) * 100 else 0 in
      marginal <- getMarginalRate quotientIncome brackets ;;
      Returns {| grossIncome := income;
                 totalTax := finalTax;
                 netIncome := income - finalTax;
                 effectiveRate := effectiveRate;
                 marginalRate := marginal;
                 allowances := None;
                 quotientFamilial := Some parts;
                 breakdown := Some breakdown;
                 jurisdiction := "France";
                 currency := "EUR" |}
  end.

Section Component.

(** The [jurisdiction] prop of the component. *)
Variable jurisdiction_code : string.

Definition calculateGenericIncomeTax (income : Q) (isMarried : bool) (dependents : Z)
  : outcome IncomeResult :=
  let rate := if leb income 50000 then 20 else if leb income 100000 then 30 else 40 in
  let tax := income * (rate / 100) in
  let allowances := (if isMarried then 2000 else 1000) + inject_Z dependents * 500 in
  let finalTax := Math_max 0 (tax - allowances) in
  Returns {| grossIncome := income;
             totalTax := finalTax;
             netIncome := income - finalTax;
             effectiveRate := if gtb income 0 then (finalTax / income) * 100 else 0;
             marginalRate := rate;
             allowances := Some allowances;
             quotientFamilial := None;
             breakdown := None;
             jurisdiction := jurisdiction_code;
             currency := "EUR" |}.

Variable formData : FormData.

Definition calculateIncomeTax : outcome IncomeResult :=
  let income := float_or_zero (income formData) in
  let dependents := int_or_zero (dependents formData) in
  let isMarried := String.eqb (maritalStatus formData) "married" in
  if String.eqb jurisdiction_code "MT" then
    calculateMaltaIncomeTax income isMarried dependents
  else if String.eqb jurisdiction_code "FR" then
    calculateFranceIncomeTax income isMarried dependents
  else
    calculateGenericIncomeTax income isMarried dependents.

Definition calculateVAT : VATResult :=
  let amount := float_or_zero (vatAmount formData) in
  let rate := float_or_zero (vatRate formData) in
  let vatAmount := amount * (rate / 100) in
  let totalWithVAT := amount + vatAmount in
  {| netAmount := amount;
     vat_vatRate := rate;
     vat_vatAmount := vatAmount;
     totalAmount := totalWithVAT;
     vat_jurisdiction := jurisdiction_code;
     vat_currency := "EUR" |}.

Definition calculateCorporateTax : CorporateResult :=
  let profit := float_or_zero (income formData) in
  let expenses := float_or_zero (businessExpenses formData) in
  let taxableProfit := Math_max 0 (profit - expenses) in
  let rate :=
    if String.eqb jurisdiction_code "MT" then 35
    else if String.eqb jurisdiction_code "FR" then
      (if leb taxableProfit 42500 then 15 else 25)
    else 25 in
  let tax := taxableProfit * (rate / 100) in
  {| grossProfit := profit;
     corp_businessExpenses := expenses;
     taxableProfit := taxableProfit;
     corporateTaxRate := rate;
     corporateTax := tax;
     netProfit := taxableProfit - tax;
     corp_jurisdiction := jurisdiction_code;
     corp_currency := "EUR" |}.

Definition calculatePropertyTax : PropertyResult :=
  let value := float_or_zero (propertyValue formData) in
  let rate :=
    if String.eqb jurisdiction_code "MT" then
      (if isFirstTimeBuyer formData then 0 else 5)
    else 3 in
  let tax := value * (rate / 100) in
  {| prop_propertyValue := value;
     taxRate := rate;
     propertyTax := tax;
     prop_isFirstTimeBuyer := isFirstTimeBuyer formData;
     prop_jurisdiction := jurisdiction_code;
     prop_currency := "EUR" |}.

(** [calculateTax]: the [switch] on the selected calculator, with the
    [catch] that replaces a thrown exception by an error result. *)
Definition calculateTax (calculationType : string) : Results :=
  if String.eqb calculationType "income" then
    match calculateIncomeTax with
    | Returns r => IncomeResults r
    | Throws => ErrorResults "Calculation failed. Please try again."
    | NotFinite => NotFiniteResults
    end
  else if String.eqb calculationType "vat" then VATResults calculateVAT
  else if String.eqb calculationType "corporate" then CorporateResults calculateCorporateTax
  else if String.eqb calculationType "property" then PropertyResults calculatePropertyTax
  else ErrorResults "Invalid calculation type".

End Component.

(** Whether a result is the [{ error: ... }] object. *)
Definition is_error (r : Results) : bool :=
  match r with
  | ErrorResults _ => true
  | _ => false
  end.

(** The sum of the [tax] fields of a breakdown. *)
Definition breakdown_total (items : list BreakdownItem) : Q :=
  fold_right (fun item acc => tax item + acc) 0 items.

End TaxCalculator.

(** ** The income-tax edge function, [src/unnamed/part_010]

    The second document of the file: the handler passed to [serve].
    [respond] is the part between reading the body and logging the result,
    on every JSON value the field [annual_income] can hold; [serve] puts the
    preflight answer and the [catch] around it; [handler] is [respond] on a
    body whose [annual_income] is absent or a finite number, the requests
    of the calculator's own clients. *)

Module IncomeTaxFunction.

(** One entry of a [brackets] table: [{ limit, rate }], the rate as a
    fraction. *)
Record Bracket : Type := {
  limit : bound;
  rate : Q
}.

(** One entry pushed on [breakdown]; the [bracket] label is kept as the two
    amounts it prints, the [rate] label as the rate. *)
Record BreakdownItem : Type := {
  bracket : Q * Q;
  rate_label : Q;
  taxable_amount : Q;
  tax_amount : Q
}.

(** A number of JavaScript: a finite one, an infinity or [NaN]. *)
Inductive js_number : Type :=
| Value (q : Q)
| PlusInfinity
| MinusInfinity
| NotANumber.

(** What the field [annual_income] of the body can hold. A number literal
    beyond the range of the doubles ([1e999]) parses to an infinity. The
    number a string, an array or an object converts to takes a parse that
    is not modelled: the value carries it, as the form fields of the
    component carry theirs. *)
Inductive json_value : Type :=
| Undefined
| Null
| Boolean (b : bool)
| Number (q : Q)
| Overflow (negative : bool)
| Text (s : string) (n : js_number)
| Compound (n : js_number).

(** [!v] is false: every value but [undefined], [null], [false], [0] and
    the empty string. *)
Definition truthy (v : json_value) : bool :=
  match v with
  | Undefined => false
  | Null => false
  | Boolean b => b
  | Number q => negb (Qeq_bool q 0)
  | Overflow _ => true
  | Text s _ => negb (String.eqb s "")
  | Compound _ => true
  end.

(** The number a comparison or an arithmetic operation makes of a value. *)
Definition to_number (v : json_value) : js_number :=
  match v with
  | Undefined => NotANumber
  | Null => Value 0
  | Boolean b => Value (if b then 1 else 0)
  | Number q => Value q
  | Overflow negative => if negative then MinusInfinity else PlusInfinity
  | Text _ n => n
  | Compound n => n
  end.

(** [n <= 0]; every comparison with [NaN] is false. *)
Definition le_zero (n : js_number) : bool :=
  match n with
  | Value q => leb q 0
  | PlusInfinity => false
  | MinusInfinity => true
  | NotANumber => false
  end.

(** The fields read from a body whose [annual_income] is a finite JSON
    number or absent; an absent [marital_status] or [calculation_type]
    takes its default. *)
Record Request : Type := {
  req_annual_income : option Q;
  req_marital_status : option string;
  req_calculation_type : option string
}.

(** The fields read from any body. A [marital_status] or
    [calculation_type] that is no string compares as a string different
    from every literal of the code. *)
Record Body : Type := {
  body_annual_income : json_value;
  body_marital_status : option string;
  body_calculation_type : option string
}.

Record Result : Type := {
  annual_income : json_value;
  marital_status : string;
  tax_due : Q;
  effective_rate : Q;
  breakdown : list BreakdownItem
}.

(** The response: the answer to a preflight request, status 400 with an
    error, status 200 with the result, which stays the empty object for
    another [calculation_type], or the status 500 of the [catch]. *)
Inductive Response : Type :=
| Preflight
| BadRequest (error : string)
| Ok (result : option Result)
| ServerError.

Definition single_brackets : list Bracket :=
  [ {| limit := Finite 9100;  rate := 0 |};
    {| limit := Finite 14500; rate := 0.15 |};
    {| limit := Finite 19500; rate := 0.25 |};
    {| limit := Finite 60000; rate := 0.25 |};
    {| limit := Infinity;     rate := 0.35 |} ].

Definition married_brackets : list Bracket :=
  [ {| limit := Finite 12700; rate := 0 |};
    {| limit := Finite 21200; rate := 0.15 |};
    {| limit := Finite 28700; rate := 0.25 |};
    {| limit := Finite 60000; rate := 0.25 |};
    {| limit := Infinity;     rate := 0.35 |} ].

(** [limit - prev_limit] for a finite [prev_limit]. *)
Definition limit_minus (limit : bound) (prev_limit : Q) : bound :=
  match limit with
  | Finite l => Finite (l - prev_limit)
  | Infinity => Infinity
  end.

(** The [for] loop over the brackets from index [i] on: [prev_limit] is
    [brackets[i-1].limit] (0 at the start), the other arguments are the
    variables the loop updates. After an infinite [prev_limit] the width
    [bracket.limit - prev_limit] is not a finite number. *)
Fixpoint bracket_loop (income : Q) (prev_limit : bound) (brackets : list Bracket)
    (remaining_income tax_due : Q) (breakdown : list BreakdownItem)
  : outcome (Q * list BreakdownItem) :=
  match brackets with
  | [] => Returns (tax_due, breakdown)
  | b :: rest =>
      if leb remaining_income 0 then Returns (tax_due, breakdown)
      else
        match prev_limit with
        | Infinity => NotFinite
        | Finite prev =>
            let taxable_in_bracket :=
              min_bound remaining_income (limit_minus (limit b) prev) in
            let '(tax_due', breakdown') :=
              if gtb taxable_in_bracket 0 then
                let tax_in_bracket := taxable_in_bracket * rate b in
                (tax_due + tax_in_bracket,
                 breakdown ++ [ {| bracket := (prev, min_bound income (limit b));
                                   rate_label := rate b;
                                   taxable_amount := taxable_in_bracket;
                                   tax_amount := tax_in_bracket |} ])
              else (tax_due, breakdown) in
            bracket_loop income (limit b) rest
              (remaining_income - taxable_in_bracket) tax_due' breakdown'
        end
  end.

(** [Math.round(x * 100) / 100], on the exact amount. The doubles of the
    code carry an error of some 1e-12 in [x * 100]; where the exact amount
    ends on half a cent they can fall to either side, so that an amount of
    the code and the one of the model can be a cent apart. *)
Definition round2 (x : Q) : Q := Math_round (x * 100) / 100.

(** The block under [calculation_type === 'income_tax'], for a field
    [annual_income] whose number is the finite [income]. *)
Definition income_tax_of (field : json_value) (income : Q) (status : string)
  : outcome Result :=
  let brackets := if String.eqb status "single" then single_brackets else married_brackets in
  r <- bracket_loop income (Finite 0) brackets income 0 [] ;;
  let '(tax_due, breakdown) := r in
  match js_div tax_due income with
  | None => NotFinite
  | Some ratio =>
      let effective_rate := ratio * 100 in
      Returns {| annual_income := field;
                 marital_status := status;
                 tax_due := round2 tax_due;
                 effective_rate := round2 effective_rate;
                 breakdown := breakdown |}
  end.

Definition income_tax (income : Q) (status : string) : outcome Result :=
  income_tax_of (Number income) income status.

(** From the destructuring of the body to the result: the validation, then
    the calculation. A value that passes the validation without a finite
    number (an infinity, or the [NaN] of a string that is no number) is
    computed with, outside the finite numbers. *)
Definition respond (body : Body) : outcome Response :=
  let annual_income := body_annual_income body in
  let marital_status :=
    match body_marital_status body with Some s => s | None => "single" end in
  let calculation_type :=
    match body_calculation_type body with Some s => s | None => "income_tax" end in
  if negb (truthy annual_income) || le_zero (to_number annual_income) then
    Returns (BadRequest "Valid annual income is required")
  else if String.eqb calculation_type "income_tax" then
    match to_number annual_income with
    | Value income =>
        result <- income_tax_of annual_income income marital_status ;;
        Returns (Ok (Some result))
    | _ => NotFinite
    end
  else Returns (Ok None).


(** [respond] on a body whose [annual_income] is absent or a finite
    number. *)
Definition handler (req : Request) : outcome Response :=
  respond {| body_annual_income :=
               match req_annual_income req with
               | Some income => Number income
               | None => Undefined
               end;
             body_marital_status := req_marital_status req;
             body_calculation_type := req_calculation_type req |}.

(** The sum of the [tax_amount] fields of a breakdown. *)
Definition breakdown_total (items : list BreakdownItem) : Q :=
  fold_right (fun item acc => tax_amount item + acc) 0 items.

End IncomeTaxFunction.

Import TaxCalculator.

(** ** Forms *)

(** The initial form state of the component, with the numeric fields as
    parsed: the empty text fields give [NaN]. *)
Definition initial_form : FormData :=
  {| income := NaN;
     maritalStatus := "single";
     dependents := Parsed 0%Z;
     businessExpenses := NaN;
     vatAmount := NaN;
     vatRate := Parsed 18;
     propertyValue := NaN;
     isFirstTimeBuyer := false |}.

(** [updateFormData] on the fields the theorems vary. *)
Definition set_income (f : FormData) (v : parsed Q) : FormData :=
  {| income := v;
     maritalStatus := maritalStatus f;
     dependents := dependents f;
     businessExpenses := businessExpenses f;
     vatAmount := vatAmount f;
     vatRate := vatRate f;
     propertyValue := propertyValue f;
     isFirstTimeBuyer := isFirstTimeBuyer f |}.

Definition set_maritalStatus (f : FormData) (v : string) : FormData :=
  {| income := income f;
     maritalStatus := v;
     dependents := dependents f;
     businessExpenses := businessExpenses f;
     vatAmount := vatAmount f;
     vatRate := vatRate f;
     propertyValue := propertyValue f;
     isFirstTimeBuyer := isFirstTimeBuyer f |}.

Definition set_dependents (f : FormData) (v : parsed Z) : FormData :=
  {| income := income f;
     maritalStatus := maritalStatus f;
     dependents := v;
     businessExpenses := businessExpenses f;
     vatAmount := vatAmount f;
     vatRate := vatRate f;
     propertyValue := propertyValue f;
     isFirstTimeBuyer := isFirstTimeBuyer f |}.

Definition set_businessExpenses (f : FormData) (v : parsed Q) : FormData :=
  {| income := income f;
     maritalStatus := maritalStatus f;
     dependents := dependents f;
     businessExpenses := v;
     vatAmount := vatAmount f;
     vatRate := vatRate f;
     propertyValue := propertyValue f;
     isFirstTimeBuyer := isFirstTimeBuyer f |}.

Definition set_property (f : FormData) (v : parsed Q) (firstTime : bool) : FormData :=
  {| income := income f;
     maritalStatus := maritalStatus f;
     dependents := dependents f;
     businessExpenses := businessExpenses f;
     vatAmount := vatAmount f;
     vatRate := vatRate f;
     propertyValue := v;
     isFirstTimeBuyer := firstTime |}.

(** ** Tables and formulas the statements refer to *)

(** A bracket of a table as the loops expect it: a rate that is not negative
    and [min <= max]. *)
Definition well_formed (b : Bracket) : bool :=
  leb 0 (rate b) && leb_bound (min b) (max b).

(** The taxable width of a bracket as the specification words it:
    [min(base, upperBound) - lowerBound] clamped to
    [[0, upperBound - lowerBound]], and [max(0, base - lowerBound)] for the
    unbounded last bracket. *)
Definition spec_width (base lowerBound : Q) (upperBound : bound) : Q :=
  match upperBound with
  | Finite u => Math_max 0 (Math_min (Math_min base u - lowerBound) (u - lowerBound))
  | Infinity => Math_max 0 (base - lowerBound)
  end.

(** Marginal evaluation as the specification words it, over bands given by
    their lower edge, upper edge and rate in percent: each band contributes
    its width times its rate. *)
Definition spec_marginal_total (base : Q) (bands : list (Q * bound * Q)) : Q :=
  fold_right (fun band acc =>
                let '(lower, upper, rate) := band in
                spec_width base lower upper * (rate / 100) + acc) 0 bands.

(** The stamp-duty bands of the specification's Malta scenario:
    0 to 150,000 at 0%, 150,000 to 300,000 at 2%, above 300,000 at 5%. *)
Definition spec_stamp_duty_bands : list (Q * bound * Q) :=
  [ (0, Finite 150000, 0); (150000, Finite 300000, 2); (300000, Infinity, 5) ].

(** The threshold reduced-rate model as the specification words it: the
    reduced rate on the portion of the base up to the threshold, the
    standard rate on the portion above it. *)
Definition spec_two_band (base threshold reducedRate standardRate : Q) : Q :=
  spec_marginal_total base
    [ (0, Finite threshold, reducedRate); (threshold, Infinity, standardRate) ].

(** A table without gaps: each bracket starts where the one before it ends,
    and the last one is unbounded. *)
Fixpoint contiguous (brackets : list Bracket) : Prop :=
  match brackets with
  | [] => False
  | [b] => max b = Infinity
  | b :: ((b' :: _) as rest) => max b = Finite (min b') /\ contiguous rest
  end.

(** [w > 0], the test under which a bracket enters a breakdown. *)
Definition positive (w : Q) : bool := gtb w 0.

(** The limits of a table of the edge function in increasing order, from
    [prev] on. *)
Fixpoint ordered (prev : Q) (brackets : list IncomeTaxFunction.Bracket) : Prop :=
  match brackets with
  | [] => True
  | b :: rest =>
      match IncomeTaxFunction.limit b with
      | Finite l => prev <= l /\ ordered l rest
      | Infinity => True
      end
  end.

(** The widths the specification gives the brackets of such a table, each
    bracket reaching from the limit before it to its own; the table ends
    with its first bracket without limit. *)
Fixpoint spec_widths (base prev : Q) (brackets : list IncomeTaxFunction.Bracket) : list Q :=
  match brackets with
  | [] => []
  | b :: rest =>
      spec_width base prev (IncomeTaxFunction.limit b)
      :: match IncomeTaxFunction.limit b with
         | Finite l => spec_widths base l rest
         | Infinity => []
         end
  end.

(** What [|| 0] makes of a parse: [NaN] becomes the zero. *)
Definition or_zero {A : Type} (zero : A) (p : parsed A) : parsed A :=
  match p with
  | NaN => Parsed zero
  | Parsed x => Parsed x
  end.

(** The form with 0 in the place of every numeric field that did not
    parse. *)
Definition zero_unparsed (f : FormData) : FormData :=
  {| income := or_zero 0 (income f);
     maritalStatus := maritalStatus f;
     dependents := or_zero 0%Z (dependents f);
     businessExpenses := or_zero 0 (businessExpenses f);
     vatAmount := or_zero 0 (vatAmount f);
     vatRate := or_zero 0 (vatRate f);
     propertyValue := or_zero 0 (propertyValue f);
     isFirstTimeBuyer := isFirstTimeBuyer f |}.

(** The marginal rate the three income-tax functions report below every
    bracket: the last rate of the table, or the lowest flat rate. *)
Definition rate_below_brackets (jurisdiction_code : string) : Q :=
  if String.eqb jurisdiction_code "MT" then 35
  else if String.eqb jurisdiction_code "FR" then 45
  else 20.

(** ** Definitions for the further properties *)

(** [updateFormData] on the two fields of the VAT form. *)
Definition set_vat (f : FormData) (amount rate : parsed Q) : FormData :=
  {| income := income f;
     maritalStatus := maritalStatus f;
     dependents := dependents f;
     businessExpenses := businessExpenses f;
     vatAmount := amount;
     vatRate := rate;
     propertyValue := propertyValue f;
     isFirstTimeBuyer := isFirstTimeBuyer f |}.

(** Marginal evaluation over a table of the edge function, as the
    specification words it: every bracket contributes its width times its
    rate. *)
Fixpoint spec_edge_total (base prev : Q) (brackets : list IncomeTaxFunction.Bracket) : Q :=
  match brackets with
  | [] => 0
  | b :: rest =>
      spec_width base prev (IncomeTaxFunction.limit b) * IncomeTaxFunction.rate b
      + match IncomeTaxFunction.limit b with
        | Finite l => spec_edge_total base l rest
        | Infinity => 0
        end
  end.

(** A table of the edge function with a bracket without limit. *)
Fixpoint unbounded (brackets : list IncomeTaxFunction.Bracket) : Prop :=
  match brackets with
  | [] => False
  | b :: rest =>
      match IncomeTaxFunction.limit b with
      | Finite _ => unbounded rest
      | Infinity => True
      end
  end.

(** The sum of a list of amounts. *)
Definition Qsum (amounts : list Q) : Q := fold_right Qplus 0 amounts.

(** A request of the edge function with an income and a marital status and
    the default calculation type. *)
Definition income_request (income : Q) (status : string) : IncomeTaxFunction.Request :=
  {| IncomeTaxFunction.req_annual_income := Some income;
     IncomeTaxFunction.req_marital_status := Some status;
     IncomeTaxFunction.req_calculation_type := None |}.

(** * Proofs *)

(** ** Comparisons *)

Lemma gtb_true a b : gtb a b = true <-> b < a.
Proof.
  unfold gtb. rewrite negb_true_iff.
  destruct (Qle_bool a b) eqn:E.
  - apply Qle_bool_iff in E. split; [discriminate | lra].
  - split; [intros _ | reflexivity].
    apply Qnot_le_lt. intro H. apply Qle_bool_iff in H. congruence.
Qed.

Lemma gtb_false a b : gtb a b = false <-> a <= b.
Proof.
  unfold gtb. rewrite negb_false_iff. apply Qle_bool_iff.
Qed.

Lemma leb_false a b : Qle_bool a b = false <-> b < a.
Proof.
  rewrite <- gtb_true. unfold gtb. now rewrite negb_true_iff.
Qed.

(** Case analysis on every comparison of the goal, each case with the
    inequality it stands for. *)
Ltac qcase :=
  repeat match goal with
  | |- context [Qle_bool ?a ?b] =>
      let E := fresh "E" in
      destruct (Qle_bool a b) eqn:E;
      [apply Qle_bool_iff in E | apply leb_false in E]
  | H : context [if Qle_bool ?a ?b then _ else _] |- _ =>
      let E := fresh "E" in
      destruct (Qle_bool a b) eqn:E;
      [apply Qle_bool_iff in E | apply leb_false in E]
  end.

(** The comparisons among the hypotheses, as inequalities. *)
Ltac qhyps :=
  repeat match goal with
  | H : gtb _ _ = true |- _ => apply gtb_true in H
  | H : gtb _ _ = false |- _ => apply gtb_false in H
  | H : leb _ _ = true |- _ => unfold leb in H; apply Qle_bool_iff in H
  | H : leb _ _ = false |- _ => unfold leb in H; apply leb_false in H
  | H : Qle_bool _ _ = true |- _ => apply Qle_bool_iff in H
  | H : Qle_bool _ _ = false |- _ => apply leb_false in H
  end.

(** Linear arithmetic with the percentages written as the code has them. *)
Ltac qlra :=
  unfold Qdiv in *; change (/ 100) with (1 # 100) in *; lra.

Ltac qunfold :=
  unfold min_bound, leb_bound in *; unfold Math_max, Math_min, gtb, leb, geb in *.

(** ** Numbers: what [|| 0] keeps *)

Lemma float_or_zero_Parsed q : float_or_zero (Parsed q) == q.
Proof.
  unfold float_or_zero. destruct (Qeq_bool q 0) eqn:E.
  - apply Qeq_bool_iff in E. now rewrite E.
  - reflexivity.
Qed.

Lemma float_or_zero_zero p : float_or_zero p == 0 -> float_or_zero p = 0.
Proof.
  destruct p as [|q]; simpl; [reflexivity|].
  destruct (Qeq_bool q 0) eqn:E; [reflexivity|].
  intro H. apply Qeq_bool_iff in H. congruence.
Qed.

Lemma int_or_zero_Parsed z : int_or_zero (Parsed z) = z.
Proof.
  unfold int_or_zero. destruct (Z.eqb_spec z 0); congruence.
Qed.

Lemma Math_max_l a b : a <= Math_max a b.
Proof. qunfold. qcase; lra. Qed.

Lemma Math_max_mono a b c : b <= c -> Math_max a b <= Math_max a c.
Proof. intro H. qunfold. qcase; lra. Qed.

(** ** Scenario: Malta, single, no dependents, 45,000 *)

(** C1: with jurisdiction MT, the income-tax calculation for a single
    taxpayer without dependents and an income of 45,000 returns a total of
    8,435, an effective rate of 8,435/45,000 in percent (between 18.74 and
    18.75) and a marginal rate of 25; the edge function returns the same tax
    and the effective rate rounded to 18.74. *)
Theorem malta_single_45000 (f : FormData) :
  let form := set_dependents (set_maritalStatus (set_income f (Parsed 45000)) "single")
                (Parsed 0%Z) in
  (exists r,
      calculateTax "MT" form "income" = IncomeResults r /\
      totalTax r == 8435 /\
      effectiveRate r == (8435 / 45000) * 100 /\
      18.74 <= effectiveRate r /\ effectiveRate r < 18.75 /\
      marginalRate r == 25) /\
  (exists r,
      IncomeTaxFunction.handler
        {| IncomeTaxFunction.req_annual_income := Some 45000;
           IncomeTaxFunction.req_marital_status := Some "single";
           IncomeTaxFunction.req_calculation_type := Some "income_tax" |}
      = Returns (IncomeTaxFunction.Ok (Some r)) /\
      IncomeTaxFunction.tax_due r == 8435 /\
      IncomeTaxFunction.effective_rate r == 18.74).
Proof.
  split.
  - eexists. split; [vm_compute; reflexivity|].
    repeat split; vm_compute; congruence.
  - eexists. split; [vm_compute; reflexivity|].
    split; vm_compute; reflexivity.
Qed.

(** ** The bracket loop of the calculator *)

Section BracketLoop.

Variable x : Q.

Lemma breakdown_total_app items item :
  breakdown_total (items ++ [item]) == breakdown_total items + tax item.
Proof.
  induction items as [|i items IH]; simpl.
  - lra.
  - fold (breakdown_total (items ++ [item])). fold (breakdown_total items).
    rewrite IH. lra.
Qed.

(** Inside a well-formed bracket the taxable amount is positive. *)
Lemma width_positive b :
  well_formed b = true -> min b < x ->
  0 < min_bound x (max b) - min b + 1.
Proof.
  unfold well_formed. rewrite andb_true_iff. intros [_ Hb] Hx.
  destruct (max b) as [m|]; simpl in *.
  - unfold leb in Hb. apply Qle_bool_iff in Hb. qunfold. qcase; lra.
  - lra.
Qed.

(** The two components of one step of the loop. *)
Lemma bracket_step_fst t items b :
  fst (bracket_step x (t, items) b)
  = if gtb x (min b)
    then t + (min_bound x (max b) - min b + 1) * (rate b / 100)
    else t.
Proof.
  unfold bracket_step. now destruct (gtb x (min b)).
Qed.

(** The breakdown and the running tax stay in step on a well-formed table. *)
Lemma bracket_step_consistent b st :
  well_formed b = true ->
  breakdown_total (snd st) == fst st ->
  breakdown_total (snd (bracket_step x st b)) == fst (bracket_step x st b).
Proof.
  intros Hb Hst. destruct st as [t items]. simpl in Hst. unfold bracket_step.
  destruct (gtb x (min b)) eqn:Hx; [|exact Hst].
  apply gtb_true in Hx.
  pose proof (width_positive b Hb Hx) as Hw.
  apply gtb_true in Hw. rewrite Hw. simpl.
  rewrite breakdown_total_app. simpl. rewrite Hst. reflexivity.
Qed.

Lemma bracket_loop_consistent brackets :
  forallb well_formed brackets = true ->
  forall st,
    breakdown_total (snd st) == fst st ->
    breakdown_total (snd (fold_left (bracket_step x) brackets st))
    == fst (fold_left (bracket_step x) brackets st).
Proof.
  induction brackets as [|b brackets IH]; intros Hwf st Hst; simpl.
  - exact Hst.
  - simpl in Hwf. apply andb_true_iff in Hwf as [Hb Hwf].
    apply IH; [exact Hwf|]. now apply bracket_step_consistent.
Qed.

End BracketLoop.

(** The contribution of a bracket does not decrease with the base. *)
Lemma bracket_step_mono x y b t1 t2 items1 items2 :
  well_formed b = true -> x <= y -> t1 <= t2 ->
  fst (bracket_step x (t1, items1) b) <= fst (bracket_step y (t2, items2) b).
Proof.
  intros Hb Hxy Ht. rewrite !bracket_step_fst.
  pose proof Hb as Hb'. unfold well_formed in Hb'.
  apply andb_true_iff in Hb' as [Hr _]. unfold leb in Hr. apply Qle_bool_iff in Hr.
  assert (Hr' : 0 <= rate b / 100).
  { apply Qle_shift_div_l; lra. }
  destruct (gtb x (min b)) eqn:Hx, (gtb y (min b)) eqn:Hy; qhyps.
  - assert (Hw : min_bound x (max b) - min b + 1 <= min_bound y (max b) - min b + 1).
    { destruct (max b); qunfold; qcase; lra. }
    pose proof (Qmult_le_compat_r _ _ _ Hw Hr') as Hm.
    set (cx := (min_bound x (max b) - min b + 1) * (rate b / 100)) in *.
    set (cy := (min_bound y (max b) - min b + 1) * (rate b / 100)) in *.
    lra.
  - lra.
  - pose proof (width_positive y b Hb Hy) as Hw.
    assert (Hm : 0 <= (min_bound y (max b) - min b + 1) * (rate b / 100)).
    { apply Qmult_le_0_compat; lra. }
    set (cy := (min_bound y (max b) - min b + 1) * (rate b / 100)) in *.
    lra.
  - exact Ht.
Qed.

Lemma bracket_loop_mono x y brackets :
  forallb well_formed brackets = true -> x <= y ->
  forall st1 st2,
    fst st1 <= fst st2 ->
    fst (fold_left (bracket_step x) brackets st1)
    <= fst (fold_left (bracket_step y) brackets st2).
Proof.
  induction brackets as [|b brackets IH]; intros Hwf Hxy st1 st2 Hst; simpl.
  - exact Hst.
  - simpl in Hwf. apply andb_true_iff in Hwf as [Hb Hwf].
    apply IH; [exact Hwf | exact Hxy |].
    destruct st1, st2. now apply bracket_step_mono.
Qed.

(** The loop reads its base only through comparisons and sums: equal
    rationals give equal taxes. *)
Lemma bracket_loop_tax_compat x y brackets :
  forallb well_formed brackets = true -> x == y ->
  fst (bracket_loop x brackets) == fst (bracket_loop y brackets).
Proof.
  intros Hwf Hxy. unfold bracket_loop. apply Qle_antisym.
  - apply bracket_loop_mono; [exact Hwf | lra | simpl; lra].
  - apply bracket_loop_mono; [exact Hwf | lra | simpl; lra].
Qed.

Lemma malta_brackets_well_formed : forallb well_formed malta_brackets = true.
Proof. reflexivity. Qed.

Lemma france_brackets_well_formed : forallb well_formed france_brackets = true.
Proof. reflexivity. Qed.

(** On a table that is not empty [getMarginalRate] returns. *)
Lemma getMarginalRate_returns x b brackets :
  exists m, getMarginalRate x (b :: brackets) = Returns m.
Proof.
  unfold getMarginalRate.
  destruct (find (in_bracket x) (b :: brackets)) as [b'|]; [now eexists|].
  destruct (nth_error (b :: brackets) (List.length (b :: brackets) - 1)) as [b'|] eqn:E;
    [now eexists|].
  apply nth_error_None in E. simpl in E. lia.
Qed.

(** ** What the three income-tax functions return *)

Lemma calculateMaltaIncomeTax_returns x m d :
  exists r,
    calculateMaltaIncomeTax x m d = Returns r /\
    totalTax r
    = Math_max 0 (fst (bracket_loop x malta_brackets)
                  - ((if m then 600 else 0) + inject_Z d * 300)) /\
    effectiveRate r = (if gtb x 0 then (totalTax r / x) * 100 else 0) /\
    allowances r = Some ((if m then 600 else 0) + inject_Z d * 300) /\
    breakdown r = Some (snd (bracket_loop x malta_brackets)).
Proof.
  unfold calculateMaltaIncomeTax.
  destruct (bracket_loop x malta_brackets) as [t items].
  destruct (getMarginalRate_returns x
              {| min := 0; max := Finite 9100; rate := 0 |} (tl malta_brackets))
    as [mr Hmr].
  change (getMarginalRate x malta_brackets = Returns mr) in Hmr.
  rewrite Hmr. simpl. eexists. repeat split.
Qed.

Lemma calculateMaltaIncomeTax_gross x m d r :
  calculateMaltaIncomeTax x m d = Returns r -> grossIncome r = x.
Proof.
  unfold calculateMaltaIncomeTax.
  destruct (bracket_loop x malta_brackets) as [t items].
  destruct (getMarginalRate x malta_brackets); simpl; try discriminate.
  now intros [= <-].
Qed.

Lemma quotient_parts_positive m d : (0 <= d)%Z -> 1 <= quotient_parts m d.
Proof.
  intro Hd. unfold quotient_parts.
  assert (0 <= inject_Z d) by (change 0 with (inject_Z 0); now rewrite <- Zle_Qle).
  destruct m; lra.
Qed.

Lemma js_div_nonzero a b : ~ b == 0 -> js_div a b = Some (a / b).
Proof.
  intro Hb. unfold js_div. destruct (Qeq_bool b 0) eqn:E; [|reflexivity].
  apply Qeq_bool_iff in E. contradiction.
Qed.

Lemma calculateFranceIncomeTax_returns x m d :
  ~ quotient_parts m d == 0 ->
  exists r,
    calculateFranceIncomeTax x m d = Returns r /\
    totalTax r
    = fst (bracket_loop (x / quotient_parts m d) france_brackets) * quotient_parts m d /\
    effectiveRate r = (if gtb x 0 then (totalTax r / x) * 100 else 0) /\
    quotientFamilial r = Some (quotient_parts m d) /\
    breakdown r = Some (snd (bracket_loop (x / quotient_parts m d) france_brackets)).
Proof.
  intro Hp. unfold calculateFranceIncomeTax. rewrite (js_div_nonzero _ _ Hp).
  destruct (bracket_loop (x / quotient_parts m d) france_brackets) as [t items].
  destruct (getMarginalRate_returns (x / quotient_parts m d)
              {| min := 0; max := Finite 10777; rate := 0 |} (tl france_brackets))
    as [mr Hmr].
  change (getMarginalRate (x / quotient_parts m d) france_brackets = Returns mr) in Hmr.
  rewrite Hmr. simpl. eexists. repeat split.
Qed.

(** The flat rate of the generic calculation, in percent. *)
Lemma generic_rate_cases x :
  (x <= 50000 /\
   (if leb x 50000 then 20 else if leb x 100000 then 30 else 40) = 20) \/
  (50000 < x /\ x <= 100000 /\
   (if leb x 50000 then 20 else if leb x 100000 then 30 else 40) = 30) \/
  (100000 < x /\
   (if leb x 50000 then 20 else if leb x 100000 then 30 else 40) = 40).
Proof.
  destruct (leb x 50000) eqn:E1; [left | right; destruct (leb x 100000) eqn:E2; [left | right]];
    qhyps; repeat split; trivial; lra.
Qed.

(** ** Monotonicity *)

Lemma malta_total_mono x y m d ra rb :
  x <= y ->
  calculateMaltaIncomeTax x m d = Returns ra ->
  calculateMaltaIncomeTax y m d = Returns rb ->
  totalTax ra <= totalTax rb.
Proof.
  intros Hxy Ha Hb.
  destruct (calculateMaltaIncomeTax_returns x m d) as (ra' & Ea & Ta & _).
  destruct (calculateMaltaIncomeTax_returns y m d) as (rb' & Eb & Tb & _).
  assert (ra' = ra) by congruence. assert (rb' = rb) by congruence. subst.
  rewrite Ta, Tb. apply Math_max_mono.
  pose proof (bracket_loop_mono x y malta_brackets malta_brackets_well_formed Hxy
                (0, []) (0, [])) as Hm.
  unfold bracket_loop. simpl fst in Hm at 1 2.
  assert (H0 : 0 <= 0) by lra. specialize (Hm H0). lra.
Qed.

Lemma Qdiv_le_pos a b c : 0 < c -> a <= b -> a / c <= b / c.
Proof.
  intros Hc Hab. unfold Qdiv. apply Qmult_le_compat_r; [exact Hab|].
  apply Qinv_le_0_compat. lra.
Qed.

Lemma Qdiv_le_neg a b c : c < 0 -> a <= b -> b / c <= a / c.
Proof.
  intros Hc Hab.
  assert (Ea : a / c == (- a) / (- c)) by (field; lra).
  assert (Eb : b / c == (- b) / (- c)) by (field; lra).
  rewrite Ea, Eb. apply Qdiv_le_pos; lra.
Qed.

(** The French total does not decrease with the income, whatever the sign
    of the number of parts: a negative number of parts reverses the order of
    the quotients and then the order of the products. *)
Lemma france_total_mono x y m d ra rb :
  ~ quotient_parts m d == 0 -> x <= y ->
  calculateFranceIncomeTax x m d = Returns ra ->
  calculateFranceIncomeTax y m d = Returns rb ->
  totalTax ra <= totalTax rb.
Proof.
  intros Hnz Hxy Ha Hb.
  destruct (calculateFranceIncomeTax_returns x m d Hnz) as (ra' & Ea & Ta & _).
  destruct (calculateFranceIncomeTax_returns y m d Hnz) as (rb' & Eb & Tb & _).
  assert (ra' = ra) by congruence. assert (rb' = rb) by congruence. subst.
  rewrite Ta, Tb.
  set (p := quotient_parts m d) in *.
  destruct (Qlt_le_dec 0 p) as [Hpos | Hneg].
  - apply Qmult_le_compat_r; [|lra].
    apply (bracket_loop_mono _ _ france_brackets france_brackets_well_formed
             (Qdiv_le_pos x y p Hpos Hxy) (0, []) (0, [])).
    simpl. lra.
  - assert (Hp : p < 0).
    { destruct (Qlt_le_dec p 0) as [H | H]; [exact H|].
      exfalso. apply Hnz. lra. }
    pose proof (bracket_loop_mono _ _ france_brackets france_brackets_well_formed
                  (Qdiv_le_neg x y p Hp Hxy) (0, []) (0, [])) as Hm.
    assert (H0 : fst (0, @nil BreakdownItem) <= fst (0, @nil BreakdownItem))
      by (simpl; lra).
    specialize (Hm H0). fold (bracket_loop (y / p) france_brackets) in Hm.
    fold (bracket_loop (x / p) france_brackets) in Hm.
    set (tx := fst (bracket_loop (x / p) france_brackets)) in *.
    set (ty := fst (bracket_loop (y / p) france_brackets)) in *.
    assert (Hflip : ty * - p <= tx * - p) by (apply Qmult_le_compat_r; lra).
    assert (Ex : tx * - p == - (tx * p)) by ring.
    assert (Ey : ty * - p == - (ty * p)) by ring.
    rewrite Ex, Ey in Hflip. lra.
Qed.

Lemma generic_total_mono j x y m d ra rb :
  x <= y ->
  calculateGenericIncomeTax j x m d = Returns ra ->
  calculateGenericIncomeTax j y m d = Returns rb ->
  totalTax ra <= totalTax rb.
Proof.
  intros Hxy Ha Hb. unfold calculateGenericIncomeTax in *.
  injection Ha as <-. injection Hb as <-. simpl.
  apply Math_max_mono.
  generalize ((if m then 2000 else 1000) + inject_Z d * 500). intro al.
  destruct (generic_rate_cases x) as [[Hx ->] | [(Hx1 & Hx2 & ->) | [Hx ->]]];
  destruct (generic_rate_cases y) as [[Hy ->] | [(Hy1 & Hy2 & ->) | [Hy ->]]];
    qlra.
Qed.

(** C6: for a fixed jurisdiction, marital status and number of dependents
    the income-tax total does not decrease when the income grows: both
    calculations return, and the total of the smaller income is at most the
    total of the larger one. In France the number of parts must not be 0
    (it is 0 for an unmarried taxpayer with -2 dependents and a married one
    with -4), since the code divides by it. *)
Theorem income_tax_monotone (j : string) (fa fb : FormData) :
  maritalStatus fa = maritalStatus fb ->
  dependents fa = dependents fb ->
  (j = "FR" ->
   ~ quotient_parts (String.eqb (maritalStatus fa) "married")
       (int_or_zero (dependents fa)) == 0) ->
  float_or_zero (income fa) <= float_or_zero (income fb) ->
  exists ra rb,
    calculateIncomeTax j fa = Returns ra /\
    calculateIncomeTax j fb = Returns rb /\
    totalTax ra <= totalTax rb.
Proof.
  intros Hs Hd Hparts Hxy. unfold calculateIncomeTax. rewrite <- Hs, <- Hd.
  set (x := float_or_zero (income fa)) in *.
  set (y := float_or_zero (income fb)) in *.
  set (m := String.eqb (maritalStatus fa) "married") in *.
  set (d := int_or_zero (dependents fa)) in *.
  destruct (String.eqb j "MT"); [|destruct (String.eqb_spec j "FR") as [Hfr | Hfr]].
  - destruct (calculateMaltaIncomeTax_returns x m d) as (ra & Ea & _).
    destruct (calculateMaltaIncomeTax_returns y m d) as (rb & Eb & _).
    exists ra, rb. repeat split; trivial.
    now apply (malta_total_mono x y m d).
  - specialize (Hparts Hfr).
    destruct (calculateFranceIncomeTax_returns x m d Hparts) as (ra & Ea & _).
    destruct (calculateFranceIncomeTax_returns y m d Hparts) as (rb & Eb & _).
    exists ra, rb. repeat split; trivial.
    now apply (france_total_mono x y m d).
  - eexists. eexists. split; [reflexivity|]. split; [reflexivity|].
    now apply (generic_total_mono j x y m d).
Qed.

Lemma income_tax_monotone_witness :
  exists ra rb,
    calculateIncomeTax "FR" (set_income (set_dependents initial_form (Parsed 2%Z)) (Parsed 30000))
    = Returns ra /\
    calculateIncomeTax "FR" (set_income (set_dependents initial_form (Parsed 2%Z)) (Parsed 90000))
    = Returns rb /\
    totalTax ra <= totalTax rb.
Proof.
  apply income_tax_monotone.
  - reflexivity.
  - reflexivity.
  - intros _. vm_compute. discriminate.
  - vm_compute. discriminate.
Defined.

(** ** Jurisdictions other than MT and FR *)

(** C10: for a jurisdiction code other than MT and FR the income-tax
    calculation returns a result, never an error: the generic one, whose tax
    is the income times one flat rate (20% up to 50,000, 30% up to 100,000,
    40% above) minus the allowances, 2000 when married and 1000 otherwise
    plus 500 per dependent, and 0 when the allowances exceed it. *)
Theorem generic_income_tax (j : string) (f : FormData) :
  j <> "MT" -> j <> "FR" ->
  let base := float_or_zero (income f) in
  let allowance :=
    (if String.eqb (maritalStatus f) "married" then 2000 else 1000)
    + inject_Z (int_or_zero (dependents f)) * 500 in
  exists r flat,
    calculateTax j f "income" = IncomeResults r /\
    (base <= 50000 -> flat = 20) /\
    (50000 < base -> base <= 100000 -> flat = 30) /\
    (100000 < base -> flat = 40) /\
    marginalRate r = flat /\
    allowances r = Some allowance /\
    (allowance <= base * (flat / 100) -> totalTax r == base * (flat / 100) - allowance) /\
    (base * (flat / 100) <= allowance -> totalTax r == 0).
Proof.
  intros Hmt Hfr base allowance.
  apply String.eqb_neq in Hmt. apply String.eqb_neq in Hfr.
  unfold calculateTax, calculateIncomeTax. simpl. rewrite Hmt, Hfr.
  unfold calculateGenericIncomeTax. fold base. fold allowance.
  eexists. exists (if leb base 50000 then 20 else if leb base 100000 then 30 else 40).
  split; [reflexivity|]. simpl. clearbody base allowance.
  destruct (generic_rate_cases base) as [[Hx ->] | [(Hx1 & Hx2 & ->) | [Hx ->]]];
    repeat split; trivial; intros; try (exfalso; lra);
    unfold Math_max; qcase; qlra.
Qed.

Lemma generic_income_tax_witness :
  exists r flat,
    calculateTax "DE" (set_income initial_form (Parsed 60000)) "income" = IncomeResults r /\
    (60000 <= 50000 -> flat = 20) /\
    (50000 < 60000 -> 60000 <= 100000 -> flat = 30) /\
    (100000 < 60000 -> flat = 40) /\
    marginalRate r = flat /\
    allowances r = Some (1000 + inject_Z 0 * 500) /\
    (1000 + inject_Z 0 * 500 <= 60000 * (flat / 100) ->
     totalTax r == 60000 * (flat / 100) - (1000 + inject_Z 0 * 500)) /\
    (60000 * (flat / 100) <= 1000 + inject_Z 0 * 500 -> totalTax r == 0).
Proof.
  apply (generic_income_tax "DE" (set_income initial_form (Parsed 60000))).
  - discriminate.
  - discriminate.
Defined.

(** ** The bracket loop of the edge function *)

Module EdgeLoop.

Import IncomeTaxFunction.

Lemma edge_breakdown_total_app items item :
  breakdown_total (items ++ [item]) == breakdown_total items + tax_amount item.
Proof.
  induction items as [|i items IH]; simpl.
  - lra.
  - fold (breakdown_total (items ++ [item])). fold (breakdown_total items).
    rewrite IH. lra.
Qed.

(** The loop returns: it never subtracts from an infinite limit, because
    after a bracket without limit nothing of the income remains. *)
Lemma edge_loop_returns income brackets :
  forall prev remaining t items,
    (exists p, prev = Finite p) \/ remaining <= 0 ->
    exists res, bracket_loop income prev brackets remaining t items = Returns res.
Proof.
  induction brackets as [|b brackets IH]; intros prev remaining t items Hinv; simpl.
  - now eexists.
  - destruct (leb remaining 0) eqn:Hr; [now eexists|]. qhyps.
    destruct Hinv as [[p ->] | Hneg]; [|lra].
    destruct (limit b) as [l|] eqn:Hl; simpl.
    + destruct (gtb (Math_min remaining (l - p)) 0); apply IH; left; now eexists.
    + destruct (gtb remaining 0); apply IH; right; lra.
Qed.

(** The breakdown and the running tax stay in step. *)
Lemma edge_loop_consistent income brackets :
  forall prev remaining t items t' items',
    bracket_loop income prev brackets remaining t items = Returns (t', items') ->
    breakdown_total items == t ->
    breakdown_total items' == t'.
Proof.
  induction brackets as [|b brackets IH];
    intros prev remaining t items t' items' Hloop Hst; simpl in Hloop.
  - injection Hloop as <- <-. exact Hst.
  - destruct (leb remaining 0); [injection Hloop as <- <-; exact Hst|].
    destruct prev as [p|]; [|discriminate].
    destruct (gtb (min_bound remaining (limit_minus (limit b) p)) 0).
    + apply IH in Hloop; [exact Hloop|].
      rewrite edge_breakdown_total_app. simpl. rewrite Hst. reflexivity.
    + now apply IH in Hloop.
Qed.

(** Rounding to cents moves an amount by at most half a cent. *)
Lemma round2_close t : - (1 # 200) <= round2 t - t /\ round2 t - t <= 1 # 200.
Proof.
  unfold round2, Math_round.
  pose proof (Qfloor_le (t * 100 + (1 # 2))) as Hlo.
  pose proof (Qlt_floor (t * 100 + (1 # 2))) as Hhi.
  rewrite inject_Z_plus in Hhi.
  change (inject_Z 1) with 1 in Hhi.
  set (n := inject_Z (Qfloor (t * 100 + (1 # 2)))) in *.
  split; qlra.
Qed.

(** A positive income with the default calculation type is answered with a
    result whose breakdown sums to the tax before rounding. *)
Lemma edge_income_tax_returns income status :
  ~ income == 0 ->
  exists t items,
    bracket_loop income (Finite 0)
      (if String.eqb status "single" then single_brackets else married_brackets)
      income 0 [] = Returns (t, items) /\
    breakdown_total items == t /\
    income_tax income status
    = Returns {| annual_income := Number income;
                 marital_status := status;
                 tax_due := round2 t;
                 effective_rate := round2 ((t / income) * 100);
                 breakdown := items |}.
Proof.
  intro Hnz. unfold income_tax, income_tax_of.
  set (brackets := if String.eqb status "single" then single_brackets else married_brackets).
  destruct (edge_loop_returns income brackets (Finite 0) income 0 [])
    as [[t items] Hloop]; [left; now eexists|].
  exists t, items. split; [exact Hloop|]. split.
  - apply (edge_loop_consistent _ _ _ _ _ _ _ _ Hloop). reflexivity.
  - rewrite Hloop. simpl. now rewrite (js_div_nonzero t income Hnz).
Qed.

End EdgeLoop.

Lemma handler_positive income status :
  0 < income ->
  IncomeTaxFunction.handler
    {| IncomeTaxFunction.req_annual_income := Some income;
       IncomeTaxFunction.req_marital_status := Some status;
       IncomeTaxFunction.req_calculation_type := None |}
  = bind (IncomeTaxFunction.income_tax income status)
      (fun result => Returns (IncomeTaxFunction.Ok (Some result))).
Proof.
  intro Hx. unfold IncomeTaxFunction.handler, IncomeTaxFunction.respond.
  cbn [IncomeTaxFunction.body_annual_income IncomeTaxFunction.body_marital_status
       IncomeTaxFunction.body_calculation_type IncomeTaxFunction.req_annual_income
       IncomeTaxFunction.req_marital_status IncomeTaxFunction.req_calculation_type
       IncomeTaxFunction.truthy IncomeTaxFunction.to_number IncomeTaxFunction.le_zero].
  destruct (Qeq_bool income 0) eqn:E0.
  - apply Qeq_bool_iff in E0. lra.
  - destruct (leb income 0) eqn:E1; [qhyps; lra | reflexivity].
Qed.

(** ** Breakdown and total *)

Lemma bracket_loop_nonneg x brackets :
  forallb well_formed brackets = true ->
  forall st, 0 <= fst st -> 0 <= fst (fold_left (bracket_step x) brackets st).
Proof.
  induction brackets as [|b brackets IH]; intros Hwf st Hst; simpl.
  - exact Hst.
  - simpl in Hwf. apply andb_true_iff in Hwf as [Hb Hwf].
    apply IH; [exact Hwf|]. destruct st as [t items]. simpl in Hst.
    rewrite bracket_step_fst. destruct (gtb x (min b)) eqn:Hx; [|exact Hst].
    qhyps. pose proof (width_positive x b Hb Hx) as Hw.
    unfold well_formed in Hb. apply andb_true_iff in Hb as [Hr _]. qhyps.
    assert (0 <= rate b / 100) by (apply Qle_shift_div_l; lra).
    assert (0 <= (min_bound x (max b) - min b + 1) * (rate b / 100))
      by (apply Qmult_le_0_compat; lra).
    lra.
Qed.

(** C3, as the code has it: the breakdown of an income-tax result sums to
    the tax of the brackets before the adjustment, not to the total. In the
    Maltese result the total is that sum minus the allowances, floored at 0
    (so the two agree when there are no allowances); in the French result
    it is that sum times the number of parts; in the edge function the total
    is that sum rounded to cents, at most half a cent away. *)
Theorem breakdown_sums_to_bracket_tax (x : Q) (m : bool) (d : Z) (status : string) :
  (exists r items,
      calculateMaltaIncomeTax x m d = Returns r /\
      breakdown r = Some items /\
      totalTax r
      == Math_max 0 (breakdown_total items - ((if m then 600 else 0) + inject_Z d * 300)) /\
      (m = false -> d = 0%Z -> totalTax r == breakdown_total items)) /\
  (~ quotient_parts m d == 0 ->
   exists r items,
      calculateFranceIncomeTax x m d = Returns r /\
      breakdown r = Some items /\
      totalTax r == breakdown_total items * quotient_parts m d) /\
  (0 < x ->
   exists r,
      IncomeTaxFunction.handler
        {| IncomeTaxFunction.req_annual_income := Some x;
           IncomeTaxFunction.req_marital_status := Some status;
           IncomeTaxFunction.req_calculation_type := None |}
      = Returns (IncomeTaxFunction.Ok (Some r)) /\
      - (1 # 200)
      <= IncomeTaxFunction.tax_due r
         - IncomeTaxFunction.breakdown_total (IncomeTaxFunction.breakdown r) /\
      IncomeTaxFunction.tax_due r
      - IncomeTaxFunction.breakdown_total (IncomeTaxFunction.breakdown r)
      <= 1 # 200).
Proof.
  split; [|split].
  - destruct (calculateMaltaIncomeTax_returns x m d) as (r & Er & Tr & _ & _ & Br).
    exists r, (snd (bracket_loop x malta_brackets)).
    pose proof (bracket_loop_consistent x malta_brackets malta_brackets_well_formed
                  (0, []) ltac:(reflexivity)) as Hsum.
    fold (bracket_loop x malta_brackets) in Hsum.
    pose proof (bracket_loop_nonneg x malta_brackets malta_brackets_well_formed
                  (0, []) ltac:(simpl; lra)) as Hpos.
    fold (bracket_loop x malta_brackets) in Hpos.
    repeat split; trivial.
    + rewrite Tr. unfold Math_max. qcase; lra.
    + intros -> ->. rewrite Tr. change (inject_Z 0) with 0.
      unfold Math_max. qcase; lra.
  - intro Hp.
    destruct (calculateFranceIncomeTax_returns x m d Hp) as (r & Er & Tr & _ & _ & Br).
    exists r, (snd (bracket_loop (x / quotient_parts m d) france_brackets)).
    pose proof (bracket_loop_consistent (x / quotient_parts m d) france_brackets
                  france_brackets_well_formed (0, []) ltac:(reflexivity)) as Hsum.
    fold (bracket_loop (x / quotient_parts m d) france_brackets) in Hsum.
    repeat split; trivial.
    rewrite Tr. rewrite Hsum. reflexivity.
  - intro Hx. rewrite (handler_positive x status Hx).
    assert (Hnz : ~ x == 0) by (intro H0; rewrite H0 in Hx; lra).
    destruct (EdgeLoop.edge_income_tax_returns x status Hnz) as (t & items & _ & Hsum & ->).
    simpl. eexists. split; [reflexivity|]. simpl.
    rewrite Hsum. apply EdgeLoop.round2_close.
Qed.

Lemma breakdown_sums_to_bracket_tax_witness :
  (exists r items,
      calculateMaltaIncomeTax 45000 true 0 = Returns r /\
      breakdown r = Some items /\
      totalTax r
      == Math_max 0 (breakdown_total items - ((if true then 600 else 0) + inject_Z 0 * 300)) /\
      (true = false -> 0%Z = 0%Z -> totalTax r == breakdown_total items)) /\
  (exists r items,
      calculateFranceIncomeTax 45000 true 0 = Returns r /\
      breakdown r = Some items /\
      totalTax r == breakdown_total items * quotient_parts true 0) /\
  (exists r,
      IncomeTaxFunction.handler
        {| IncomeTaxFunction.req_annual_income := Some 45000;
           IncomeTaxFunction.req_marital_status := Some "married";
           IncomeTaxFunction.req_calculation_type := None |}
      = Returns (IncomeTaxFunction.Ok (Some r)) /\
      - (1 # 200)
      <= IncomeTaxFunction.tax_due r
         - IncomeTaxFunction.breakdown_total (IncomeTaxFunction.breakdown r) /\
      IncomeTaxFunction.tax_due r
      - IncomeTaxFunction.breakdown_total (IncomeTaxFunction.breakdown r)
      <= 1 # 200).
Proof.
  destruct (breakdown_sums_to_bracket_tax 45000 true 0 "married") as (HM & HF & HE).
  split; [exact HM | split].
  - apply HF. vm_compute. discriminate.
  - apply HE. reflexivity.
Defined.

(** C3 as the claim states it fails: for a married taxpayer in Malta with
    an income of 45,000 the breakdown sums to 8,435 and the total is 7,835;
    for a married couple in France with 60,000 the breakdown sums to a
    half of the total. *)
Lemma breakdown_differs_from_total :
  (exists r items,
      calculateIncomeTax "MT"
        (set_maritalStatus (set_income initial_form (Parsed 45000)) "married")
      = Returns r /\
      breakdown r = Some items /\
      breakdown_total items == 8435 /\
      totalTax r == 7835 /\
      1 # 100 < breakdown_total items - totalTax r) /\
  (exists r items,
      calculateIncomeTax "FR"
        (set_maritalStatus (set_income initial_form (Parsed 60000)) "married")
      = Returns r /\
      breakdown r = Some items /\
      totalTax r == breakdown_total items * 2 /\
      1 # 100 < totalTax r - breakdown_total items).
Proof.
  split.
  - eexists. eexists. split; [vm_compute; reflexivity|].
    split; [reflexivity|]. repeat split; vm_compute; reflexivity.
  - eexists. eexists. split; [vm_compute; reflexivity|].
    split; [reflexivity|]. repeat split; vm_compute; reflexivity.
Qed.

(** ** Stamp duty *)

(** C4, as the code has it: the property tax is one flat rate on the whole
    value, without bands: in Malta 0% for a first-time buyer and 5%
    otherwise, 3% in every other jurisdiction. *)
Theorem property_tax_flat_rate (j : string) (f : FormData) :
  let value := float_or_zero (propertyValue f) in
  let r := calculatePropertyTax j f in
  prop_propertyValue r = value /\
  propertyTax r == value * (taxRate r / 100) /\
  (j = "MT" -> isFirstTimeBuyer f = true -> taxRate r = 0 /\ propertyTax r == 0) /\
  (j = "MT" -> isFirstTimeBuyer f = false ->
   taxRate r = 5 /\ propertyTax r == value * (5 / 100)) /\
  (j <> "MT" -> taxRate r = 3 /\ propertyTax r == value * (3 / 100)).
Proof.
  intros value r. subst r. unfold calculatePropertyTax. simpl. fold value.
  split; [reflexivity|]. split; [reflexivity|].
  split; [|split].
  - intros -> ->. simpl. split; [reflexivity | qlra].
  - intros -> ->. simpl. split; reflexivity.
  - intros Hj. apply String.eqb_neq in Hj. rewrite Hj. split; reflexivity.
Qed.

Lemma property_tax_flat_rate_witness :
  let f := set_property initial_form (Parsed 200000) true in
  taxRate (calculatePropertyTax "MT" f) = 0 /\
  propertyTax (calculatePropertyTax "MT" f) == 0.
Proof.
  intro f.
  destruct (property_tax_flat_rate "MT" f) as (_ & _ & H & _).
  apply H; reflexivity.
Defined.

(** C4 as the claim states it fails: for Malta, a first-time buyer and a
    value of 200,000 the bands of the specification give 1,000, the code
    returns 0; without the first-time-buyer flag and with 400,000 they give
    8,000 and the code returns 20,000. *)
Lemma stamp_duty_is_not_banded :
  spec_marginal_total 200000 spec_stamp_duty_bands == 1000 /\
  propertyTax (calculatePropertyTax "MT" (set_property initial_form (Parsed 200000) true))
  == 0 /\
  ~ propertyTax (calculatePropertyTax "MT" (set_property initial_form (Parsed 200000) true))
    == 1000 /\
  spec_marginal_total 400000 spec_stamp_duty_bands == 8000 /\
  propertyTax (calculatePropertyTax "MT" (set_property initial_form (Parsed 400000) false))
  == 20000.
Proof.
  repeat split; try (vm_compute; reflexivity).
  vm_compute. discriminate.
Qed.

(** ** Corporate tax *)

(** What [calculateCorporateTax] computes: the taxable profit is the profit
    minus the expenses, floored at 0, and the tax is one rate on the whole
    of it: 35% in Malta, 25% elsewhere, and in France 15% of the whole
    profit when it is at most 42,500 and 25% of the whole profit when it is
    above. Up to the threshold that is what the two-band evaluation gives. *)
Theorem corporate_tax_single_rate (j : string) (f : FormData) :
  let profit := float_or_zero (income f) in
  let expenses := float_or_zero (businessExpenses f) in
  let r := calculateCorporateTax j f in
  (expenses <= profit -> taxableProfit r == profit - expenses) /\
  (profit <= expenses -> taxableProfit r == 0) /\
  corporateTax r == taxableProfit r * (corporateTaxRate r / 100) /\
  (j = "MT" -> corporateTaxRate r = 35) /\
  (j = "FR" -> taxableProfit r <= 42500 ->
   corporateTaxRate r = 15 /\
   corporateTax r == spec_two_band (taxableProfit r) 42500 15 25) /\
  (j = "FR" -> 42500 < taxableProfit r ->
   corporateTaxRate r = 25 /\ corporateTax r == taxableProfit r * (25 / 100)) /\
  (j <> "MT" -> j <> "FR" -> corporateTaxRate r = 25).
Proof.
  intros profit expenses r. subst r. unfold calculateCorporateTax. simpl.
  fold profit. fold expenses.
  assert (H0 : 0 <= Math_max 0 (profit - expenses)) by apply Math_max_l.
  split; [|split; [|split; [|split; [|split; [|split]]]]].
  - intro H. unfold Math_max. qcase; lra.
  - intro H. unfold Math_max. qcase; lra.
  - reflexivity.
  - now intros ->.
  - intros -> H. simpl. unfold leb. apply Qle_bool_iff in H. rewrite H.
    split; [reflexivity|].
    apply Qle_bool_iff in H.
    generalize dependent (Math_max 0 (profit - expenses)). intros t H0 H.
    unfold spec_two_band, spec_marginal_total, spec_width. simpl.
    unfold Math_max, Math_min. qcase; qlra.
  - intros -> H. simpl. unfold leb. apply leb_false in H. rewrite H.
    split; reflexivity.
  - intros Hmt Hfr. apply String.eqb_neq in Hmt. apply String.eqb_neq in Hfr.
    now rewrite Hmt, Hfr.
Qed.

Lemma corporate_tax_single_rate_witness :
  let f := set_businessExpenses (set_income initial_form (Parsed 60000)) (Parsed 10000) in
  taxableProfit (calculateCorporateTax "FR" f) == 60000 - 10000 /\
  corporateTaxRate (calculateCorporateTax "FR" f) = 25 /\
  corporateTax (calculateCorporateTax "FR" f)
  == taxableProfit (calculateCorporateTax "FR" f) * (25 / 100).
Proof.
  intro f.
  destruct (corporate_tax_single_rate "FR" f) as (Hbase & _ & _ & _ & _ & Habove & _).
  split.
  - rewrite Hbase.
    + vm_compute. reflexivity.
    + vm_compute. discriminate.
  - apply Habove; reflexivity.
Defined.

(** Above the threshold the French tax is 4,250 over the two-band
    evaluation: the 10% of difference on the first 42,500. *)
Lemma france_corporate_excess (f : FormData) :
  42500 < taxableProfit (calculateCorporateTax "FR" f) ->
  corporateTax (calculateCorporateTax "FR" f)
  == spec_two_band (taxableProfit (calculateCorporateTax "FR" f)) 42500 15 25 + 4250.
Proof.
  unfold calculateCorporateTax. cbn [taxableProfit corporateTax].
  change (String.eqb "FR" "MT") with false. change (String.eqb "FR" "FR") with true.
  cbv iota. set (t := Math_max 0 _). clearbody t. intro Ht.
  unfold spec_two_band, spec_marginal_total, spec_width. simpl fold_right.
  unfold leb, Math_max, Math_min. qcase; qlra.
Qed.

(** C7 at an input where the code departs from it: the base is the profit
    minus the expenses floored at 0, as the claim says, but in France a
    taxable profit of 50,000 is taxed 12,500, a quarter of all of it, where
    the reduced rate on the first 42,500 and the standard rate above give
    42,500 at 15% plus 7,500 at 25%, that is 8,250. *)
Lemma corporate_tax_is_not_banded :
  let r := calculateCorporateTax "FR" (set_income initial_form (Parsed 50000)) in
  taxableProfit r == 50000 /\
  corporateTax r == 12500 /\
  spec_two_band 50000 42500 15 25 == 8250 /\
  ~ corporateTax r == spec_two_band (taxableProfit r) 42500 15 25.
Proof.
  repeat split; try (vm_compute; reflexivity).
  vm_compute. discriminate.
Qed.

(** ** A base of zero *)

Lemma Qmult_zero_l a b : a == 0 -> a * b == 0.
Proof. intro H. rewrite H. apply Qmult_0_l. Qed.

(** Below every bracket the loop changes nothing. *)
Lemma bracket_loop_below y brackets :
  forallb (fun b => leb 0 (min b)) brackets = true -> y <= 0 ->
  forall st, fold_left (bracket_step y) brackets st = st.
Proof.
  induction brackets as [|b brackets IH]; intros Hmin Hy st; simpl.
  - reflexivity.
  - simpl in Hmin. apply andb_true_iff in Hmin as [Hb Hmin]. qhyps.
    rewrite IH by assumption.
    destruct st as [t items]. unfold bracket_step.
    assert (Hle : gtb y (min b) = false) by (apply gtb_false; lra).
    now rewrite Hle.
Qed.

Lemma malta_allowances_nonneg (m : bool) d :
  (0 <= d)%Z -> 0 <= (if m then 600 else 0) + inject_Z d * 300.
Proof.
  intro Hd.
  assert (0 <= inject_Z d) by (change 0 with (inject_Z 0); now rewrite <- Zle_Qle).
  destruct m; lra.
Qed.

Lemma income_tax_zero_base j f :
  (0 <= int_or_zero (dependents f))%Z ->
  float_or_zero (income f) == 0 ->
  exists r,
    calculateIncomeTax j f = Returns r /\
    totalTax r == 0 /\ effectiveRate r == 0 /\
    (breakdown r = Some [] \/ breakdown r = None).
Proof.
  intros Hd Hx. apply float_or_zero_zero in Hx.
  unfold calculateIncomeTax. rewrite Hx.
  set (m := String.eqb (maritalStatus f) "married").
  set (d := int_or_zero (dependents f)) in *.
  destruct (String.eqb j "MT"); [|destruct (String.eqb j "FR")].
  - destruct (calculateMaltaIncomeTax_returns 0 m d) as (r & Er & Tr & Rr & _ & Br).
    exists r. split; [exact Er|].
    change (bracket_loop 0 malta_brackets) with (0, @nil BreakdownItem) in Tr, Br.
    pose proof (malta_allowances_nonneg m d Hd) as Hal. simpl in Tr, Br.
    repeat split.
    + rewrite Tr. unfold Math_max. qcase; lra.
    + rewrite Rr. reflexivity.
    + now left.
  - pose proof (quotient_parts_positive m d Hd) as Hp.
    assert (Hnz : ~ quotient_parts m d == 0) by (intro H0; rewrite H0 in Hp; lra).
    destruct (calculateFranceIncomeTax_returns 0 m d Hnz) as (r & Er & Tr & Rr & _ & Br).
    exists r. split; [exact Er|].
    assert (Hq : 0 / quotient_parts m d <= 0) by (unfold Qdiv; rewrite Qmult_0_l; lra).
    assert (Hloop : bracket_loop (0 / quotient_parts m d) france_brackets = (0, [])).
    { unfold bracket_loop. now apply bracket_loop_below. }
    rewrite Hloop in Tr, Br. simpl in Tr, Br.
    repeat split.
    + rewrite Tr. apply Qmult_0_l.
    + rewrite Rr. reflexivity.
    + now left.
  - unfold calculateGenericIncomeTax. eexists. split; [reflexivity|]. simpl.
    assert (Hal : 0 <= inject_Z d) by (change 0 with (inject_Z 0); now rewrite <- Zle_Qle).
    clearbody m. split; [|split].
    + unfold Math_max. clearbody d. destruct m; qcase; qlra.
    + reflexivity.
    + now right.
Qed.

(** C5, as the code has it: in the calculator component a base of 0 (an
    empty or unreadable field included) is not rejected and gives a tax of
    0 for each of the four calculation types and every jurisdiction; for
    income tax, with a number of dependents that is not negative, the total
    and the effective rate are 0 and the breakdown is empty or absent. The
    edge function rejects an income of 0 with status 400. *)
Theorem zero_base_gives_zero_tax (j : string) (f : FormData) :
  (0 <= int_or_zero (dependents f))%Z ->
  (float_or_zero (income f) == 0 ->
   exists r,
     calculateTax j f "income" = IncomeResults r /\
     totalTax r == 0 /\ effectiveRate r == 0 /\
     (breakdown r = Some [] \/ breakdown r = None)) /\
  (float_or_zero (vatAmount f) == 0 ->
   exists r, calculateTax j f "vat" = VATResults r /\ vat_vatAmount r == 0) /\
  (float_or_zero (income f) <= float_or_zero (businessExpenses f) ->
   exists r,
     calculateTax j f "corporate" = CorporateResults r /\
     taxableProfit r == 0 /\ corporateTax r == 0) /\
  (float_or_zero (propertyValue f) == 0 ->
   exists r, calculateTax j f "property" = PropertyResults r /\ propertyTax r == 0) /\
  (forall status ctype,
     IncomeTaxFunction.handler
       {| IncomeTaxFunction.req_annual_income := Some 0;
          IncomeTaxFunction.req_marital_status := status;
          IncomeTaxFunction.req_calculation_type := ctype |}
     = Returns (IncomeTaxFunction.BadRequest "Valid annual income is required")).
Proof.
  intro Hd. split; [|split; [|split; [|split]]].
  - intro Hx. destruct (income_tax_zero_base j f Hd Hx) as (r & Er & Hr).
    exists r. split; [|exact Hr].
    unfold calculateTax. simpl. now rewrite Er.
  - intro Hx. eexists. split; [reflexivity|]. now apply Qmult_zero_l.
  - intro Hx. eexists. split; [reflexivity|]. simpl.
    assert (Hbase : Math_max 0 (float_or_zero (income f) - float_or_zero (businessExpenses f))
                    == 0) by (unfold Math_max; qcase; lra).
    split; [exact Hbase|]. now apply Qmult_zero_l.
  - intro Hx. eexists. split; [reflexivity|]. now apply Qmult_zero_l.
  - reflexivity.
Qed.

Lemma zero_base_gives_zero_tax_witness :
  (exists r,
     calculateTax "MT" initial_form "income" = IncomeResults r /\
     totalTax r == 0 /\ effectiveRate r == 0 /\
     (breakdown r = Some [] \/ breakdown r = None)) /\
  (exists r, calculateTax "MT" initial_form "vat" = VATResults r /\ vat_vatAmount r == 0).
Proof.
  destruct (zero_base_gives_zero_tax "MT" initial_form) as (Hincome & Hvat & _).
  - vm_compute. discriminate.
  - split; [apply Hincome | apply Hvat]; reflexivity.
Defined.

(** C5 as the claim states it fails: the edge function answers an income of
    0 with status 400 and the error "Valid annual income is required". *)
Lemma edge_function_rejects_zero_income :
  IncomeTaxFunction.handler
    {| IncomeTaxFunction.req_annual_income := Some 0;
       IncomeTaxFunction.req_marital_status := Some "single";
       IncomeTaxFunction.req_calculation_type := Some "income_tax" |}
  = Returns (IncomeTaxFunction.BadRequest "Valid annual income is required").
Proof. reflexivity. Qed.

(** ** Inputs that are not valid *)

(** The income-tax calculation of the component never throws. *)
Lemma calculateIncomeTax_does_not_throw j f : calculateIncomeTax j f <> Throws.
Proof.
  unfold calculateIncomeTax.
  set (x := float_or_zero (income f)).
  set (m := String.eqb (maritalStatus f) "married").
  set (d := int_or_zero (dependents f)).
  destruct (String.eqb j "MT"); [|destruct (String.eqb j "FR")].
  - destruct (calculateMaltaIncomeTax_returns x m d) as (r & -> & _). discriminate.
  - unfold calculateFranceIncomeTax.
    destruct (js_div x (quotient_parts m d)) as [q|]; [|discriminate].
    destruct (bracket_loop q france_brackets) as [t items].
    destruct (getMarginalRate_returns q
                {| min := 0; max := Finite 10777; rate := 0 |} (tl france_brackets))
      as [mr Hmr].
    change (getMarginalRate q france_brackets = Returns mr) in Hmr.
    rewrite Hmr. discriminate.
  - discriminate.
Qed.

Lemma float_or_zero_or_zero p : float_or_zero (or_zero 0 p) = float_or_zero p.
Proof. now destruct p. Qed.

Lemma int_or_zero_or_zero p : int_or_zero (or_zero 0%Z p) = int_or_zero p.
Proof. now destruct p. Qed.

Lemma float_or_zero_nonzero x : ~ x == 0 -> float_or_zero (Parsed x) = x.
Proof.
  intro Hx. unfold float_or_zero. destruct (Qeq_bool x 0) eqn:E; [|reflexivity].
  apply Qeq_bool_iff in E. contradiction.
Qed.

(** A negative base lies in no bracket with a [min] of 0 or more. *)
Lemma find_below x brackets :
  forallb (fun b => leb 0 (min b)) brackets = true -> x < 0 ->
  find (in_bracket x) brackets = None.
Proof.
  induction brackets as [|b brackets IH]; intros Hmin Hx; simpl; [reflexivity|].
  simpl in Hmin. apply andb_true_iff in Hmin as [Hb Hmin]. qhyps.
  assert (Hin : in_bracket x b = false).
  { unfold in_bracket, geb. apply andb_false_iff. left. apply leb_false. lra. }
  rewrite Hin. now apply IH.
Qed.

(** What the three functions return for a negative income: the income
    itself as gross income, no bracket entered, and the marginal rate of
    the last bracket, where no bracket contains the base. *)
Lemma malta_negative_income x m d :
  x < 0 ->
  calculateMaltaIncomeTax x m d
  = Returns {| grossIncome := x;
               totalTax := Math_max 0 (0 - ((if m then 600 else 0) + inject_Z d * 300));
               netIncome :=
                 x - Math_max 0 (0 - ((if m then 600 else 0) + inject_Z d * 300));
               effectiveRate := 0;
               marginalRate := 35;
               allowances := Some ((if m then 600 else 0) + inject_Z d * 300);
               quotientFamilial := None;
               breakdown := Some [];
               jurisdiction := "Malta";
               currency := "EUR" |}.
Proof.
  intro Hx. unfold calculateMaltaIncomeTax.
  assert (Hloop : bracket_loop x malta_brackets = (0, [])).
  { unfold bracket_loop. apply bracket_loop_below; [reflexivity | lra]. }
  assert (Hrate : getMarginalRate x malta_brackets = Returns 35).
  { unfold getMarginalRate. now rewrite (find_below x malta_brackets eq_refl Hx). }
  assert (Hgt : gtb x 0 = false) by (apply gtb_false; lra).
  rewrite Hloop, Hrate, Hgt. reflexivity.
Qed.

Lemma france_negative_income x m d :
  x < 0 -> 0 < quotient_parts m d ->
  calculateFranceIncomeTax x m d
  = Returns {| grossIncome := x;
               totalTax := 0 * quotient_parts m d;
               netIncome := x - 0 * quotient_parts m d;
               effectiveRate := 0;
               marginalRate := 45;
               allowances := None;
               quotientFamilial := Some (quotient_parts m d);
               breakdown := Some [];
               jurisdiction := "France";
               currency := "EUR" |}.
Proof.
  intros Hx Hp. unfold calculateFranceIncomeTax.
  assert (Hnz : ~ quotient_parts m d == 0) by (intro H0; rewrite H0 in Hp; lra).
  rewrite (js_div_nonzero _ _ Hnz).
  assert (Hq : x / quotient_parts m d < 0).
  { assert (Hq' : 0 < (- x) / quotient_parts m d) by (apply Qlt_shift_div_l; lra).
    assert (E : (- x) / quotient_parts m d == - (x / quotient_parts m d))
      by (field; exact Hnz).
    rewrite E in Hq'. lra. }
  assert (Hloop : bracket_loop (x / quotient_parts m d) france_brackets = (0, [])).
  { unfold bracket_loop. apply bracket_loop_below; [reflexivity | lra]. }
  assert (Hrate : getMarginalRate (x / quotient_parts m d) france_brackets = Returns 45).
  { unfold getMarginalRate. now rewrite (find_below _ france_brackets eq_refl Hq). }
  assert (Hgt : gtb x 0 = false) by (apply gtb_false; lra).
  rewrite Hloop, Hrate, Hgt. reflexivity.
Qed.

(** C8, as the code has it: the calculator component rejects no input. For
    each of its four calculation types the result is never the error
    object; every numeric field that does not parse gives the result of the
    value 0; an income is used as it is, also a negative one, which enters
    no bracket: with a number of dependents that is not negative the result
    reports it as gross and as net income, a total and an effective rate of
    0, and the marginal rate below the brackets (35 in Malta, 45 in France,
    20 elsewhere); a marital status other than married is treated as
    single. The edge function answers an absent, zero or negative income
    with status 400, and takes the married table for every marital status
    other than single. *)
Theorem invalid_input_handling (j : string) (f : FormData) (t : string) :
  In t ["income"; "vat"; "corporate"; "property"] ->
  is_error (calculateTax j f t) = false /\
  calculateTax j (set_income f NaN) t = calculateTax j (set_income f (Parsed 0)) t /\
  calculateTax j (zero_unparsed f) t = calculateTax j f t /\
  (forall x, j <> "FR" ->
     exists r,
       calculateTax j (set_income f (Parsed x)) "income" = IncomeResults r /\
       grossIncome r == x) /\
  (forall x,
     ~ quotient_parts (String.eqb (maritalStatus f) "married")
         (int_or_zero (dependents f)) == 0 ->
     exists r,
       calculateTax "FR" (set_income f (Parsed x)) "income" = IncomeResults r /\
       grossIncome r == x /\
       quotientFamilial r
       = Some (quotient_parts (String.eqb (maritalStatus f) "married")
                 (int_or_zero (dependents f)))) /\
  (forall x, x < 0 -> (0 <= int_or_zero (dependents f))%Z ->
     exists r,
       calculateTax j (set_income f (Parsed x)) "income" = IncomeResults r /\
       grossIncome r = x /\
       totalTax r == 0 /\
       netIncome r == x /\
       effectiveRate r = 0 /\
       marginalRate r = rate_below_brackets j) /\
  (forall s, s <> "married" ->
     calculateTax j (set_maritalStatus f s) t
     = calculateTax j (set_maritalStatus f "single") t) /\
  (forall status ctype,
     IncomeTaxFunction.handler
       {| IncomeTaxFunction.req_annual_income := None;
          IncomeTaxFunction.req_marital_status := status;
          IncomeTaxFunction.req_calculation_type := ctype |}
     = Returns (IncomeTaxFunction.BadRequest "Valid annual income is required")) /\
  (forall x status ctype, x <= 0 ->
     IncomeTaxFunction.handler
       {| IncomeTaxFunction.req_annual_income := Some x;
          IncomeTaxFunction.req_marital_status := status;
          IncomeTaxFunction.req_calculation_type := ctype |}
     = Returns (IncomeTaxFunction.BadRequest "Valid annual income is required")) /\
  (forall x s, 0 < x -> s <> "single" ->
     exists r r',
       IncomeTaxFunction.income_tax x s = Returns r /\
       IncomeTaxFunction.income_tax x "married" = Returns r' /\
       IncomeTaxFunction.tax_due r = IncomeTaxFunction.tax_due r' /\
       IncomeTaxFunction.breakdown r = IncomeTaxFunction.breakdown r').
Proof.
  intro Ht.
  split; [|split; [|split; [|split; [|split; [|split; [|split; [|split; [|split]]]]]]]].
  - simpl in Ht. destruct Ht as [<- | [<- | [<- | [<- | []]]]]; try reflexivity.
    unfold calculateTax. simpl.
    pose proof (calculateIncomeTax_does_not_throw j f) as Hthrow.
    destruct (calculateIncomeTax j f); [reflexivity | contradiction | reflexivity].
  - reflexivity.
  - unfold calculateTax, calculateIncomeTax, calculateVAT, calculateCorporateTax,
      calculatePropertyTax.
    cbn [income maritalStatus dependents businessExpenses vatAmount vatRate
         propertyValue isFirstTimeBuyer zero_unparsed].
    now rewrite !float_or_zero_or_zero, int_or_zero_or_zero.
  - intros x Hfr. apply String.eqb_neq in Hfr.
    unfold calculateTax, calculateIncomeTax. simpl String.eqb. cbv iota.
    cbn [income set_income]. rewrite Hfr.
    pose proof (float_or_zero_Parsed x) as Hx.
    destruct (String.eqb j "MT").
    + match goal with
      | |- context [calculateMaltaIncomeTax ?a ?b ?c] =>
          destruct (calculateMaltaIncomeTax_returns a b c) as (r & Er & _);
          pose proof (calculateMaltaIncomeTax_gross a b c r Er) as Hg;
          rewrite Er
      end.
      exists r. split; [reflexivity|]. now rewrite Hg.
    + eexists. split; [reflexivity|]. exact Hx.
  - intros x Hnz.
    unfold calculateTax, calculateIncomeTax. simpl String.eqb. cbv iota.
    cbn [income maritalStatus dependents set_income].
    pose proof (float_or_zero_Parsed x) as Hx.
    set (m := String.eqb (maritalStatus f) "married") in *.
    set (d := int_or_zero (dependents f)) in *.
    destruct (calculateFranceIncomeTax_returns (float_or_zero (Parsed x)) m d Hnz)
      as (r & Er & _ & _ & Qr & _).
    rewrite Er. exists r. split; [reflexivity|]. split; [|exact Qr].
    unfold calculateFranceIncomeTax in Er. rewrite (js_div_nonzero _ _ Hnz) in Er.
    destruct (bracket_loop _ france_brackets) in Er.
    destruct (getMarginalRate _ france_brackets) in Er; simpl in Er; try discriminate.
    injection Er as <-. exact Hx.
  - intros x Hx Hd.
    assert (Hnz : ~ x == 0) by (intro H0; rewrite H0 in Hx; lra).
    unfold calculateTax, calculateIncomeTax, rate_below_brackets.
    simpl String.eqb. cbv iota. cbn [income maritalStatus dependents set_income].
    rewrite (float_or_zero_nonzero x Hnz).
    set (m := String.eqb (maritalStatus f) "married").
    set (d := int_or_zero (dependents f)) in *.
    destruct (String.eqb j "MT"); [|destruct (String.eqb j "FR")].
    + rewrite (malta_negative_income x m d Hx).
      eexists. split; [reflexivity|]. cbn [grossIncome totalTax netIncome
        effectiveRate marginalRate].
      pose proof (malta_allowances_nonneg m d Hd) as Hal.
      generalize dependent ((if m then 600 else 0) + inject_Z d * 300). intros al Hal.
      split; [reflexivity|]. split; [unfold Math_max; qcase; lra|].
      split; [unfold Math_max; qcase; lra|]. split; reflexivity.
    + pose proof (quotient_parts_positive m d Hd) as Hp.
      rewrite (france_negative_income x m d Hx ltac:(lra)).
      eexists. split; [reflexivity|]. cbn [grossIncome totalTax netIncome
        effectiveRate marginalRate].
      split; [reflexivity|]. split; [ring|]. split; [ring|]. split; reflexivity.
    + unfold calculateGenericIncomeTax.
      assert (H50 : leb x 50000 = true) by (unfold leb; apply Qle_bool_iff; lra).
      assert (Hgt : gtb x 0 = false) by (apply gtb_false; lra).
      rewrite H50, Hgt.
      eexists. split; [reflexivity|]. cbn [grossIncome totalTax netIncome
        effectiveRate marginalRate].
      assert (Hdq : 0 <= inject_Z d) by (change 0 with (inject_Z 0); now rewrite <- Zle_Qle).
      generalize dependent (inject_Z d). intros dq Hdq.
      split; [reflexivity|].
      split; [unfold Math_max; destruct m; qcase; qlra|].
      split; [unfold Math_max; destruct m; qcase; qlra|]. split; reflexivity.
  - intros s Hs. apply String.eqb_neq in Hs.
    unfold calculateTax, calculateIncomeTax, calculateVAT, calculateCorporateTax,
      calculatePropertyTax.
    cbn [income maritalStatus dependents businessExpenses vatAmount vatRate
         propertyValue isFirstTimeBuyer set_maritalStatus].
    rewrite Hs. reflexivity.
  - reflexivity.
  - intros x status ctype Hx. unfold IncomeTaxFunction.handler, IncomeTaxFunction.respond.
    cbn [IncomeTaxFunction.body_annual_income IncomeTaxFunction.req_annual_income
         IncomeTaxFunction.truthy IncomeTaxFunction.to_number IncomeTaxFunction.le_zero].
    assert (Hle : leb x 0 = true) by (unfold leb; now apply Qle_bool_iff).
    rewrite Hle. now rewrite orb_true_r.
  - intros x s Hx Hs. apply String.eqb_neq in Hs.
    assert (Hnz : ~ x == 0) by (intro H0; rewrite H0 in Hx; lra).
    destruct (EdgeLoop.edge_income_tax_returns x s Hnz) as (t1 & i1 & L1 & _ & E1).
    destruct (EdgeLoop.edge_income_tax_returns x "married" Hnz) as (t2 & i2 & L2 & _ & E2).
    rewrite Hs in L1. change (String.eqb "married" "single") with false in L2.
    cbv iota in L2. rewrite L1 in L2. injection L2 as <- <-.
    rewrite E1, E2. eexists. eexists. repeat split.
Qed.

Lemma invalid_input_handling_witness :
  is_error (calculateTax "MT" (set_income initial_form (Parsed (-5000))) "income") = false.
Proof.
  apply (invalid_input_handling "MT" (set_income initial_form (Parsed (-5000))) "income").
  simpl. now left.
Defined.

(** C8 as the claim states it fails: with a negative income, or an income
    field that does not parse and a marital status outside the enumeration,
    the Maltese calculation returns a result and no error; the unreadable
    income is taken as 0. *)
Lemma invalid_input_is_not_rejected :
  (exists r,
      calculateTax "MT" (set_income initial_form (Parsed (-5000))) "income"
      = IncomeResults r /\
      grossIncome r == -5000 /\ totalTax r == 0) /\
  (exists r,
      calculateTax "MT" (set_maritalStatus (set_income initial_form NaN) "widowed") "income"
      = IncomeResults r /\
      grossIncome r == 0 /\ totalTax r == 0 /\
      calculateTax "MT" (set_maritalStatus (set_income initial_form (Parsed 0)) "single")
        "income"
      = IncomeResults r).
Proof.
  split.
  - eexists. split; [vm_compute; reflexivity|]. split; vm_compute; reflexivity.
  - eexists. split; [vm_compute; reflexivity|].
    repeat split; vm_compute; reflexivity.
Qed.

(** ** The width of a bracket *)

(** In every bracket the component enters, its taxable amount is the width
    of the specification plus one. *)
Lemma component_width_is_spec_plus_one x b :
  well_formed b = true -> min b < x ->
  min_bound x (max b) - min b + 1 == spec_width x (min b) (max b) + 1.
Proof.
  unfold well_formed. rewrite andb_true_iff. intros [_ Hb] Hx.
  unfold spec_width. destruct (max b) as [m|]; simpl in *.
  - unfold leb in Hb. apply Qle_bool_iff in Hb.
    unfold Math_max, Math_min. qcase; lra.
  - unfold Math_max. qcase; lra.
Qed.

(** C2 at the inputs where the calculator component departs from it. With
    an income of 45,000 the Maltese breakdown gives the bracket from 0 to
    9,100 a taxable amount of 9,101 and the bracket from 9,101 to 14,500 one
    of 5,400, each one more than [min(base, max) - min]. With an income of
    9,101 the component skips the second bracket and returns a total of 0,
    while the edge function taxes the width of 1 at 15%. *)
Theorem bracket_width_offset :
  (exists r first second rest,
      calculateMaltaIncomeTax 45000 false 0 = Returns r /\
      breakdown r = Some (first :: second :: rest) /\
      range first = (0, Finite 9100) /\
      taxableAmount first == 9101 /\
      spec_width 45000 0 (Finite 9100) == 9100 /\
      range second = (9101, Finite 14500) /\
      taxableAmount second == 5400 /\
      spec_width 45000 9101 (Finite 14500) == 5399) /\
  (exists r first,
      calculateMaltaIncomeTax 9101 false 0 = Returns r /\
      breakdown r = Some [first] /\
      range first = (0, Finite 9100) /\
      totalTax r == 0) /\
  (exists r,
      IncomeTaxFunction.income_tax 9101 "single" = Returns r /\
      map IncomeTaxFunction.taxable_amount (IncomeTaxFunction.breakdown r) = [9100; 1] /\
      IncomeTaxFunction.tax_due r == 0.15).
Proof.
  split; [|split].
  - do 4 eexists. split; [vm_compute; reflexivity|].
    split; [reflexivity|]. repeat split; vm_compute; reflexivity.
  - do 2 eexists. split; [vm_compute; reflexivity|].
    split; [reflexivity|]. split; [reflexivity|]. vm_compute. reflexivity.
  - eexists. split; [vm_compute; reflexivity|].
    split; [reflexivity|]. vm_compute. reflexivity.
Qed.

(** The loop of the edge function does what C2 says, on every ordered
    table: its breakdown lists, in order, the widths of the specification
    that are not zero. *)
Section EdgeWidths.

Import IncomeTaxFunction.

Variable base : Q.

Lemma edge_loop_break prev brackets remaining t items :
  remaining <= 0 ->
  bracket_loop base prev brackets remaining t items = Returns (t, items).
Proof.
  intro Hr. destruct brackets as [|b brackets]; simpl; [reflexivity|].
  assert (Hle : leb remaining 0 = true) by (unfold leb; now apply Qle_bool_iff).
  now rewrite Hle.
Qed.

Lemma spec_widths_above brackets :
  forall p, base <= p -> ordered p brackets ->
  filter positive (spec_widths base p brackets) = [].
Proof.
  induction brackets as [|b brackets IH]; intros p Hp Hord; simpl; [reflexivity|].
  simpl in Hord. destruct (limit b) as [l|]; simpl.
  - destruct Hord as [Hl Hord].
    assert (Hw : positive (Math_max 0 (Math_min (Math_min base l - p) (l - p))) = false).
    { apply gtb_false. unfold Math_max, Math_min. qcase; lra. }
    rewrite Hw. apply IH; [lra | exact Hord].
  - assert (Hw : positive (Math_max 0 (base - p)) = false).
    { apply gtb_false. unfold Math_max. qcase; lra. }
    now rewrite Hw.
Qed.

Lemma edge_widths_follow_spec brackets :
  forall p remaining t items,
    ordered p brackets ->
    (base <= p /\ remaining <= 0) \/ (p < base /\ remaining == base - p) ->
    exists t' new,
      bracket_loop base (Finite p) brackets remaining t items
      = Returns (t', items ++ new) /\
      Forall2 (fun item w => taxable_amount item == w) new
        (filter positive (spec_widths base p brackets)).
Proof.
  induction brackets as [|b brackets IH]; intros p r t items Hord Hinv.
  - exists t, []. simpl. rewrite app_nil_r. split; [reflexivity | constructor].
  - destruct Hinv as [[Hp Hr] | [Hp Hr]].
    { exists t, []. rewrite app_nil_r, edge_loop_break by exact Hr.
      rewrite spec_widths_above by assumption. split; [reflexivity | constructor]. }
    simpl. simpl in Hord.
    assert (Hpos : leb r 0 = false) by (unfold leb; apply leb_false; lra).
    rewrite Hpos.
    destruct (limit b) as [l|] eqn:Hl; simpl.
    + destruct Hord as [Hpl Hord].
      assert (Hw : Math_min r (l - p)
                   == Math_max 0 (Math_min (Math_min base l - p) (l - p))).
      { unfold Math_max, Math_min. qcase; lra. }
      assert (Hnext : (base <= l /\ r - Math_min r (l - p) <= 0) \/
                      (l < base /\ r - Math_min r (l - p) == base - l)).
      { unfold Math_min. qcase; [left | right]; split; lra. }
      destruct (gtb (Math_min r (l - p)) 0) eqn:Hgt.
      * assert (Hgt' : positive (Math_max 0 (Math_min (Math_min base l - p) (l - p)))
                       = true).
        { apply gtb_true. apply gtb_true in Hgt. lra. }
        rewrite Hgt'.
        match goal with
        | |- context [bracket_loop base (Finite l) brackets ?r' ?t1 (items ++ [?it])] =>
            destruct (IH l r' t1 (items ++ [it]) Hord Hnext) as (t' & new & Hloop & Hall);
            exists t', (it :: new)
        end.
        rewrite <- app_assoc in Hloop. split; [exact Hloop|].
        constructor; [exact Hw | exact Hall].
      * assert (Hgt' : positive (Math_max 0 (Math_min (Math_min base l - p) (l - p)))
                       = false).
        { apply gtb_false. apply gtb_false in Hgt. lra. }
        rewrite Hgt'. now apply IH.
    + assert (Hgt : gtb r 0 = true) by (apply gtb_true; lra).
      rewrite Hgt.
      assert (Hgt' : positive (Math_max 0 (base - p)) = true).
      { apply gtb_true. unfold Math_max. qcase; lra. }
      rewrite Hgt'.
      rewrite edge_loop_break by lra.
      eexists. eexists. split; [reflexivity|].
      constructor; [|constructor]. simpl. unfold Math_max. qcase; lra.
Qed.

(** The two tables of the edge function are ordered, so the breakdown of
    every income it accepts lists the widths of the specification. *)
Lemma edge_breakdown_follows_spec status :
  ~ base == 0 ->
  let brackets := if String.eqb status "single" then single_brackets else married_brackets in
  exists r,
    income_tax base status = Returns r /\
    Forall2 (fun item w => taxable_amount item == w) (breakdown r)
      (filter positive (spec_widths base 0 brackets)).
Proof.
  intros Hnz brackets.
  assert (Hord : ordered 0 brackets).
  { subst brackets. destruct (String.eqb status "single"); simpl;
      repeat split; (vm_compute; discriminate). }
  assert (Hinv : (base <= 0 /\ base <= 0) \/ (0 < base /\ base == base - 0)).
  { destruct (Qlt_le_dec 0 base); [right | left]; split; lra. }
  destruct (edge_widths_follow_spec brackets 0 base 0 [] Hord Hinv)
    as (t & new & Hloop & Hall).
  unfold income_tax, income_tax_of. fold brackets. rewrite Hloop. simpl.
  rewrite (js_div_nonzero t base Hnz).
  eexists. split; [reflexivity|]. exact Hall.
Qed.

End EdgeWidths.

(** ** The marginal rate *)

Lemma find_contiguous x brackets :
  contiguous brackets ->
  (forall b, hd_error brackets = Some b -> min b <= x) ->
  exists b, find (in_bracket x) brackets = Some b /\ in_bracket x b = true.
Proof.
  induction brackets as [|b brackets IH]; intros Hc Hmin; [contradiction|].
  specialize (Hmin b eq_refl) as Hb.
  simpl. destruct (in_bracket x b) eqn:Hin; [now exists b|].
  destruct brackets as [|b' brackets].
  - simpl in Hc. unfold in_bracket in Hin. rewrite Hc in Hin. simpl in Hin.
    rewrite andb_true_r in Hin. unfold geb in Hin. qhyps. lra.
  - destruct Hc as [Hmax Hc]. apply IH; [exact Hc|].
    intros b0 [= <-]. unfold in_bracket in Hin. rewrite Hmax in Hin. simpl in Hin.
    unfold geb, leb in Hin. apply andb_false_iff in Hin as [Hin | Hin]; qhyps; lra.
Qed.

(** On a table without gaps [getMarginalRate] is the rate of a bracket that
    contains the base. *)
Lemma getMarginalRate_contiguous x brackets :
  contiguous brackets ->
  (forall b, hd_error brackets = Some b -> min b <= x) ->
  exists b,
    In b brackets /\ in_bracket x b = true /\
    getMarginalRate x brackets = Returns (rate b).
Proof.
  intros Hc Hmin. destruct (find_contiguous x brackets Hc Hmin) as (b & Hfind & Hin).
  exists b. split; [|split; [exact Hin|]].
  - now apply find_some in Hfind.
  - unfold getMarginalRate. now rewrite Hfind.
Qed.

(** C9 at the inputs where the component departs from it: the tables leave
    a gap between the [max] of a bracket and the [min] of the next. A
    married couple in France with 21,555 has a quotient of 10,777.5, in no
    bracket of the table: the result reports the rate of the last bracket,
    45, while the loop taxes the whole quotient in the bracket at 0%. In
    Malta an income of 9,100.5 reports 35 and no tax. *)
Theorem marginal_rate_in_gap :
  (exists r items,
      calculateIncomeTax "FR"
        (set_maritalStatus (set_income initial_form (Parsed 21555)) "married")
      = Returns r /\
      find (in_bracket (21555 / 2)) france_brackets = None /\
      marginalRate r == 45 /\
      breakdown r = Some items /\
      map rate_label items = [0] /\
      totalTax r == 0) /\
  (exists r items,
      calculateIncomeTax "MT" (set_income initial_form (Parsed 9100.5)) = Returns r /\
      find (in_bracket 9100.5) malta_brackets = None /\
      marginalRate r == 35 /\
      breakdown r = Some items /\
      map rate_label items = [0] /\
      totalTax r == 0).
Proof.
  split.
  - do 2 eexists. split; [vm_compute; reflexivity|].
    split; [vm_compute; reflexivity|]. split; [vm_compute; reflexivity|].
    split; [reflexivity|]. split; [reflexivity|]. vm_compute. reflexivity.
  - do 2 eexists. split; [vm_compute; reflexivity|].
    split; [vm_compute; reflexivity|]. split; [vm_compute; reflexivity|].
    split; [reflexivity|]. split; [reflexivity|]. vm_compute. reflexivity.
Qed.

(** * Further properties of the two calculators *)

(** Case analysis on the comparisons of the goal, innermost first, deciding
    each one from the hypotheses where they settle it. *)
Ltac qdecide :=
  repeat match goal with
  | |- context [Qle_bool ?a ?b] =>
      lazymatch a with context [Qle_bool _ _] => fail | _ => idtac end;
      lazymatch b with context [Qle_bool _ _] => fail | _ => idtac end;
      first
        [ let H := fresh in
          assert (H : Qle_bool a b = true) by (apply Qle_bool_iff; qlra);
          rewrite H; clear H
        | let H := fresh in
          assert (H : Qle_bool a b = false) by (apply leb_false; qlra);
          rewrite H; clear H
        | let E := fresh "E" in
          destruct (Qle_bool a b) eqn:E;
          [apply Qle_bool_iff in E | apply leb_false in E] ];
      cbn [andb negb orb]; cbv beta iota
  end.

(** ** The tax of the component's tables *)

Lemma bracket_loop_fst x brackets :
  forall st,
    fst (fold_left (bracket_step x) brackets st)
    = fold_left (fun t b => if gtb x (min b)
                            then t + (min_bound x (max b) - min b + 1) * (rate b / 100)
                            else t) brackets (fst st).
Proof.
  induction brackets as [|b brackets IH]; intros [t items]; cbn [fold_left];
    [reflexivity|].
  rewrite IH. now rewrite bracket_step_fst.
Qed.

(** Unfolds the tax of a loop over one of the two tables of the component
    into its comparisons. *)
Ltac loop_tax :=
  unfold bracket_loop; rewrite ?bracket_loop_fst;
  unfold malta_brackets, france_brackets;
  cbn [fold_left min max rate fst min_bound];
  unfold gtb, Math_min.

Lemma malta_tax_bound x :
  0 <= fst (bracket_loop x malta_brackets) /\
  (0 <= x -> fst (bracket_loop x malta_brackets) <= x * (35 / 100)).
Proof.
  loop_tax. qdecide; split; intros; qlra.
Qed.

Lemma france_tax_bound x :
  0 <= fst (bracket_loop x france_brackets) /\
  (0 <= x -> fst (bracket_loop x france_brackets) <= x * (45 / 100)).
Proof.
  loop_tax. qdecide; split; intros; qlra.
Qed.

Lemma inject_Z_nonneg d : (0 <= d)%Z -> 0 <= inject_Z d.
Proof. intro Hd. change 0 with (inject_Z 0). now rewrite <- Zle_Qle. Qed.

(** X1: with an income and a number of dependents that are not negative,
    the income-tax calculation of every jurisdiction returns a total
    between 0 and 45% of the income, and a net income, the income minus the
    total, that is not negative. *)
Theorem tax_within_income (j : string) (f : FormData) :
  (0 <= int_or_zero (dependents f))%Z ->
  0 <= float_or_zero (income f) ->
  exists r,
    calculateIncomeTax j f = Returns r /\
    0 <= totalTax r /\
    totalTax r <= float_or_zero (income f) * (45 / 100) /\
    netIncome r == float_or_zero (income f) - totalTax r /\
    0 <= netIncome r.
Proof.
  intros Hd Hx. unfold calculateIncomeTax.
  set (x := float_or_zero (income f)) in *.
  set (m := String.eqb (maritalStatus f) "married").
  set (d := int_or_zero (dependents f)) in *.
  destruct (String.eqb j "MT"); [|destruct (String.eqb j "FR")].
  - destruct (calculateMaltaIncomeTax_returns x m d) as (r & Er & Tr & _).
    exists r. split; [exact Er|].
    assert (Hnet : netIncome r = x - totalTax r).
    { unfold calculateMaltaIncomeTax in Er.
      destruct (bracket_loop x malta_brackets).
      destruct (getMarginalRate x malta_brackets); simpl in Er; try discriminate.
      now injection Er as <-. }
    rewrite Hnet.
    destruct (malta_tax_bound x) as [H0 H1]. specialize (H1 Hx).
    pose proof (malta_allowances_nonneg m d Hd) as Hal.
    rewrite Tr. clearbody x.
    generalize dependent (fst (bracket_loop x malta_brackets)). intros t _ H0 H1.
    generalize dependent ((if m then 600 else 0) + inject_Z d * 300). intros al Hal.
    unfold Math_max. qcase; repeat split; qlra.
  - pose proof (quotient_parts_positive m d Hd) as Hp.
    assert (Hnz : ~ quotient_parts m d == 0) by (intro H0; rewrite H0 in Hp; lra).
    destruct (calculateFranceIncomeTax_returns x m d Hnz) as (r & Er & Tr & _).
    exists r. split; [exact Er|].
    assert (Hnet : netIncome r = x - totalTax r).
    { unfold calculateFranceIncomeTax in Er. rewrite (js_div_nonzero _ _ Hnz) in Er.
      destruct (bracket_loop _ france_brackets).
      destruct (getMarginalRate _ france_brackets); simpl in Er; try discriminate.
      now injection Er as <-. }
    rewrite Hnet, Tr. clearbody x.
    set (p := quotient_parts m d) in *.
    assert (Hq : 0 <= x / p) by (apply Qle_shift_div_l; lra).
    destruct (france_tax_bound (x / p)) as [H0 H1]. specialize (H1 Hq).
    set (t := fst (bracket_loop (x / p) france_brackets)) in *.
    assert (Hxp : x / p * p == x) by (field; lra).
    assert (Hlo : 0 <= t * p) by (apply Qmult_le_0_compat; lra).
    assert (Hhi : t * p <= x / p * (45 / 100) * p) by (apply Qmult_le_compat_r; lra).
    assert (Hhi' : x / p * (45 / 100) * p == x * (45 / 100)).
    { rewrite <- Hxp at 2. ring. }
    rewrite Hhi' in Hhi. set (tp := t * p) in *. clearbody tp.
    repeat split; qlra.
  - unfold calculateGenericIncomeTax. eexists. split; [reflexivity|]. simpl.
    pose proof (inject_Z_nonneg d Hd) as Hal. clearbody x m d.
    generalize dependent (inject_Z d). intros dq Hal.
    destruct (generic_rate_cases x) as [[H1 ->] | [(H1 & H2 & ->) | [H1 ->]]];
      unfold Math_max; destruct m; qcase; repeat split; qlra.
Qed.

Lemma tax_within_income_witness :
  exists r,
    calculateIncomeTax "FR" (set_income initial_form (Parsed 60000)) = Returns r /\
    0 <= totalTax r /\
    totalTax r <= float_or_zero (Parsed 60000) * (45 / 100) /\
    netIncome r == float_or_zero (Parsed 60000) - totalTax r /\
    0 <= netIncome r.
Proof.
  apply (tax_within_income "FR" (set_income initial_form (Parsed 60000)));
    vm_compute; discriminate.
Defined.

(** ** Effective and marginal rate *)

Lemma calculateMaltaIncomeTax_marginal x m d r :
  calculateMaltaIncomeTax x m d = Returns r ->
  getMarginalRate x malta_brackets = Returns (marginalRate r).
Proof.
  unfold calculateMaltaIncomeTax.
  destruct (bracket_loop x malta_brackets) as [t items].
  destruct (getMarginalRate x malta_brackets); simpl; try discriminate.
  now intros [= <-].
Qed.

Lemma calculateFranceIncomeTax_marginal x m d r :
  ~ quotient_parts m d == 0 ->
  calculateFranceIncomeTax x m d = Returns r ->
  getMarginalRate (x / quotient_parts m d) france_brackets = Returns (marginalRate r).
Proof.
  intro Hnz. unfold calculateFranceIncomeTax. rewrite (js_div_nonzero _ _ Hnz).
  destruct (bracket_loop _ france_brackets) as [t items].
  destruct (getMarginalRate _ france_brackets); simpl; try discriminate.
  now intros [= <-].
Qed.

(** Unfolds [getMarginalRate] over one of the two tables into its
    comparisons. *)
Ltac marginal_rate :=
  unfold getMarginalRate, malta_brackets, france_brackets;
  cbn [find nth_error List.length Nat.sub]; unfold in_bracket;
  cbn [min max rate leb_bound]; unfold geb, leb.

(** On both tables the tax of the loop is at most the marginal rate times
    the base. *)
Lemma malta_marginal_bound x mr :
  getMarginalRate x malta_brackets = Returns mr ->
  0 <= mr /\ (0 < x -> fst (bracket_loop x malta_brackets) * 100 <= mr * x).
Proof.
  marginal_rate. loop_tax. qdecide; intros [= <-]; split; intros; qlra.
Qed.

Lemma france_marginal_bound x mr :
  getMarginalRate x france_brackets = Returns mr ->
  0 <= mr /\ (0 < x -> fst (bracket_loop x france_brackets) * 100 <= mr * x).
Proof.
  marginal_rate. loop_tax. qdecide; intros [= <-]; split; intros; qlra.
Qed.

Lemma rate_of_quotient t x mr :
  0 < x -> 0 <= t -> t * 100 <= mr * x ->
  0 <= t / x * 100 /\ t / x * 100 <= mr.
Proof.
  intros Hx Ht Hb.
  assert (E : t / x * 100 == t * 100 / x) by (field; lra).
  rewrite E. split.
  - apply Qle_shift_div_l; lra.
  - apply Qle_shift_div_r; lra.
Qed.

(** X2: with a number of dependents that is not negative, the effective
    rate of every income-tax result lies between 0 and the marginal rate
    the same result reports. *)
Theorem effective_rate_at_most_marginal (j : string) (f : FormData) :
  (0 <= int_or_zero (dependents f))%Z ->
  exists r,
    calculateIncomeTax j f = Returns r /\
    0 <= effectiveRate r /\ effectiveRate r <= marginalRate r.
Proof.
  intros Hd. unfold calculateIncomeTax.
  set (x := float_or_zero (income f)) in *.
  set (m := String.eqb (maritalStatus f) "married").
  set (d := int_or_zero (dependents f)) in *.
  destruct (String.eqb j "MT"); [|destruct (String.eqb j "FR")].
  - destruct (calculateMaltaIncomeTax_returns x m d) as (r & Er & Tr & Rr & _).
    exists r. split; [exact Er|].
    destruct (malta_marginal_bound x _ (calculateMaltaIncomeTax_marginal x m d r Er))
      as [Hm Hb].
    destruct (malta_tax_bound x) as [H0 _].
    pose proof (malta_allowances_nonneg m d Hd) as Hal.
    rewrite Rr. destruct (gtb x 0) eqn:Hx; [|split; lra]. qhyps. specialize (Hb Hx).
    apply rate_of_quotient; [exact Hx | |]; rewrite Tr; clearbody x;
      generalize dependent (fst (bracket_loop x malta_brackets)); intros t _ Hb H0;
      generalize dependent ((if m then 600 else 0) + inject_Z d * 300); intros al Hal;
      unfold Math_max; qcase; lra.
  - pose proof (quotient_parts_positive m d Hd) as Hp.
    assert (Hnz : ~ quotient_parts m d == 0) by (intro H0; rewrite H0 in Hp; lra).
    destruct (calculateFranceIncomeTax_returns x m d Hnz) as (r & Er & Tr & Rr & _).
    exists r. split; [exact Er|].
    destruct (france_marginal_bound _ _ (calculateFranceIncomeTax_marginal x m d r Hnz Er))
      as [Hm Hb].
    set (p := quotient_parts m d) in *.
    destruct (france_tax_bound (x / p)) as [H0 _].
    rewrite Rr. destruct (gtb x 0) eqn:Hx; [|split; lra]. qhyps.
    assert (Hq : 0 < x / p) by (apply Qlt_shift_div_l; lra).
    specialize (Hb Hq). rewrite Tr.
    set (t := fst (bracket_loop (x / p) france_brackets)) in *.
    assert (Hxp : x / p * p == x) by (field; lra).
    apply rate_of_quotient; [exact Hx | apply Qmult_le_0_compat; lra |].
    assert (H1 : t * 100 * p <= marginalRate r * (x / p) * p)
      by (apply Qmult_le_compat_r; lra).
    assert (E1 : t * 100 * p == t * p * 100) by ring.
    assert (E2 : marginalRate r * (x / p) * p == marginalRate r * x).
    { rewrite <- Hxp at 2. ring. }
    rewrite E1, E2 in H1. exact H1.
  - unfold calculateGenericIncomeTax. eexists. split; [reflexivity|]. simpl.
    pose proof (inject_Z_nonneg d Hd) as Hal. clearbody x m d.
    generalize dependent (inject_Z d). intros dq Hal.
    destruct (gtb x 0) eqn:Hx; qhyps.
    + destruct (generic_rate_cases x) as [[H1 ->] | [(H1 & H2 & ->) | [H1 ->]]];
        (apply rate_of_quotient; [exact Hx | apply Math_max_l |]);
        unfold Math_max; destruct m; qcase; qlra.
    + destruct (generic_rate_cases x) as [[H1 ->] | [(H1 & H2 & ->) | [H1 ->]]];
        split; lra.
Qed.

Lemma effective_rate_at_most_marginal_witness :
  exists r,
    calculateIncomeTax "MT" (set_income initial_form (Parsed 45000)) = Returns r /\
    0 <= effectiveRate r /\ effectiveRate r <= marginalRate r.
Proof.
  apply (effective_rate_at_most_marginal "MT" (set_income initial_form (Parsed 45000))).
  vm_compute. discriminate.
Defined.

(** ** Allowances and the family quotient *)

(** X3: in the Maltese calculation being married lowers the total, by at
    most the 600 of the allowance, and one more dependent lowers it by at
    most 300, for every income and number of dependents. *)
Theorem malta_allowance_effect (x : Q) (d : Z) :
  exists single married more,
    calculateMaltaIncomeTax x false d = Returns single /\
    calculateMaltaIncomeTax x true d = Returns married /\
    calculateMaltaIncomeTax x false (d + 1) = Returns more /\
    totalTax married <= totalTax single /\
    totalTax single <= totalTax married + 600 /\
    totalTax more <= totalTax single /\
    totalTax single <= totalTax more + 300.
Proof.
  destruct (calculateMaltaIncomeTax_returns x false d) as (r1 & E1 & T1 & _).
  destruct (calculateMaltaIncomeTax_returns x true d) as (r2 & E2 & T2 & _).
  destruct (calculateMaltaIncomeTax_returns x false (d + 1)) as (r3 & E3 & T3 & _).
  exists r1, r2, r3. repeat (split; [assumption|]).
  rewrite T1, T2, T3. rewrite inject_Z_plus. change (inject_Z 1) with 1.
  generalize (fst (bracket_loop x malta_brackets)) (inject_Z d). intros t dq.
  unfold Math_max. qcase; repeat split; lra.
Qed.

(** X4: the French total of a household is the number of parts times the
    total of a single taxpayer without dependents whose income is the
    household's income divided by the number of parts. *)
Theorem france_quotient_scaling (x : Q) (m : bool) (d : Z) :
  ~ quotient_parts m d == 0 ->
  exists household part,
    calculateFranceIncomeTax x m d = Returns household /\
    calculateFranceIncomeTax (x / quotient_parts m d) false 0 = Returns part /\
    totalTax household == quotient_parts m d * totalTax part.
Proof.
  intro Hnz.
  destruct (calculateFranceIncomeTax_returns x m d Hnz) as (r & Er & Tr & _).
  assert (H1 : ~ quotient_parts false 0 == 0) by (vm_compute; discriminate).
  destruct (calculateFranceIncomeTax_returns (x / quotient_parts m d) false 0 H1)
    as (r1 & Er1 & Tr1 & _).
  exists r, r1. split; [exact Er|]. split; [exact Er1|].
  rewrite Tr, Tr1.
  assert (Hq : x / quotient_parts m d / quotient_parts false 0 == x / quotient_parts m d).
  { change (quotient_parts false 0) with (1 + inject_Z 0 * (1 # 2)). field. exact Hnz. }
  rewrite (bracket_loop_tax_compat _ _ france_brackets france_brackets_well_formed Hq).
  change (quotient_parts false 0) with (1 + inject_Z 0 * (1 # 2)).
  change (inject_Z 0) with 0. ring.
Qed.

Lemma france_quotient_scaling_witness :
  exists household part,
    calculateFranceIncomeTax 60000 true 0 = Returns household /\
    calculateFranceIncomeTax (60000 / quotient_parts true 0) false 0 = Returns part /\
    totalTax household == quotient_parts true 0 * totalTax part.
Proof.
  apply france_quotient_scaling. vm_compute. discriminate.
Defined.

(** ** The marginal rate *)

(** X6: for an income of whole euros that is not negative, the marginal
    rate of the Maltese table is the rate of a bracket that contains the
    income: the gaps of the table lie strictly between whole euros. *)
Theorem malta_marginal_rate_whole_euro (n : Z) :
  (0 <= n)%Z ->
  exists b,
    In b malta_brackets /\
    in_bracket (inject_Z n) b = true /\
    getMarginalRate (inject_Z n) malta_brackets = Returns (rate b).
Proof.
  intro Hn.
  assert (Hfind : exists b, find (in_bracket (inject_Z n)) malta_brackets = Some b).
  { assert (H0 : 0 <= inject_Z n) by now apply inject_Z_nonneg.
    assert (Hcut : forall c : Z, inject_Z n <= inject_Z c \/ inject_Z (c + 1) <= inject_Z n).
    { intro c. destruct (Z_le_gt_dec n c); [left | right]; rewrite <- Zle_Qle; lia. }
    pose proof (Hcut 9100%Z) as H1. pose proof (Hcut 14500%Z) as H2.
    pose proof (Hcut 19500%Z) as H3. pose proof (Hcut 60000%Z) as H4.
    simpl in H1, H2, H3, H4.
    change (inject_Z 9100) with 9100 in H1. change (inject_Z 9101) with 9101 in H1.
    change (inject_Z 14500) with 14500 in H2. change (inject_Z 14501) with 14501 in H2.
    change (inject_Z 19500) with 19500 in H3. change (inject_Z 19501) with 19501 in H3.
    change (inject_Z 60000) with 60000 in H4. change (inject_Z 60001) with 60001 in H4.
    generalize dependent (inject_Z n). intros q H0 _ H1 H2 H3 H4.
    unfold malta_brackets. cbn [find]. unfold in_bracket.
    cbn [min max rate leb_bound]. unfold geb, leb.
    destruct H1, H2, H3, H4; qdecide; eexists; reflexivity. }
  destruct Hfind as [b Hfind]. exists b.
  pose proof (find_some _ _ Hfind) as [Hin Hb].
  split; [exact Hin|]. split; [exact Hb|].
  unfold getMarginalRate. now rewrite Hfind.
Qed.

Lemma malta_marginal_rate_whole_euro_witness :
  exists b,
    In b malta_brackets /\
    in_bracket (inject_Z 9101) b = true /\
    getMarginalRate (inject_Z 9101) malta_brackets = Returns (rate b).
Proof.
  apply malta_marginal_rate_whole_euro. lia.
Defined.

(** ** Corporate tax, VAT and property tax *)

(** X7: the taxable profit and the corporate tax are never negative, the
    tax is at most 35% of the taxable profit, and the net profit, the
    taxable profit minus the tax, is never negative. *)
Theorem corporate_tax_bounds (j : string) (f : FormData) :
  let r := calculateCorporateTax j f in
  0 <= taxableProfit r /\
  0 <= corporateTax r /\
  corporateTax r <= taxableProfit r * (35 / 100) /\
  netProfit r == taxableProfit r - corporateTax r /\
  0 <= netProfit r.
Proof.
  intro r. subst r. unfold calculateCorporateTax. cbn [taxableProfit corporateTax netProfit].
  pose proof (Math_max_l 0 (float_or_zero (income f) - float_or_zero (businessExpenses f)))
    as H0.
  set (t := Math_max 0 _) in *. clearbody t.
  destruct (String.eqb j "MT"); [|destruct (String.eqb j "FR"); [destruct (leb t 42500)|]];
    repeat split; qlra.
Qed.

(** X8: the taxable profit and the corporate tax do not decrease when the
    profit grows or the expenses shrink, in every jurisdiction. *)
Theorem corporate_tax_monotone (j : string) (fa fb : FormData) :
  float_or_zero (income fa) <= float_or_zero (income fb) ->
  float_or_zero (businessExpenses fb) <= float_or_zero (businessExpenses fa) ->
  taxableProfit (calculateCorporateTax j fa) <= taxableProfit (calculateCorporateTax j fb) /\
  corporateTax (calculateCorporateTax j fa) <= corporateTax (calculateCorporateTax j fb).
Proof.
  intros Hp He. unfold calculateCorporateTax. cbn [taxableProfit corporateTax].
  pose proof (Math_max_l 0 (float_or_zero (income fa) - float_or_zero (businessExpenses fa)))
    as H0.
  assert (Hab : Math_max 0 (float_or_zero (income fa) - float_or_zero (businessExpenses fa))
                <= Math_max 0 (float_or_zero (income fb) - float_or_zero (businessExpenses fb)))
    by (apply Math_max_mono; lra).
  set (a := Math_max 0 _) in *. set (b := Math_max 0 _) in *. clearbody a b.
  split; [exact Hab|].
  destruct (String.eqb j "MT"); [|destruct (String.eqb j "FR")]; try qlra.
  unfold leb. qdecide; qlra.
Qed.

Lemma corporate_tax_monotone_witness :
  taxableProfit (calculateCorporateTax "FR" (set_income initial_form (Parsed 40000)))
  <= taxableProfit (calculateCorporateTax "FR" (set_income initial_form (Parsed 50000))) /\
  corporateTax (calculateCorporateTax "FR" (set_income initial_form (Parsed 40000)))
  <= corporateTax (calculateCorporateTax "FR" (set_income initial_form (Parsed 50000))).
Proof.
  apply corporate_tax_monotone; vm_compute; discriminate.
Defined.

(** X9: the French corporate rate is a cliff: a taxable profit between
    42,500 and 48,166 pays over 4,250 more tax than one of exactly 42,500
    and leaves a smaller net profit. *)
Theorem france_corporate_threshold_cliff (fa fb : FormData) :
  taxableProfit (calculateCorporateTax "FR" fa) == 42500 ->
  42500 < taxableProfit (calculateCorporateTax "FR" fb) ->
  taxableProfit (calculateCorporateTax "FR" fb) < 48166 ->
  netProfit (calculateCorporateTax "FR" fb) < netProfit (calculateCorporateTax "FR" fa) /\
  corporateTax (calculateCorporateTax "FR" fa) + 4250
  < corporateTax (calculateCorporateTax "FR" fb).
Proof.
  unfold calculateCorporateTax. cbn [taxableProfit corporateTax netProfit].
  change (String.eqb "FR" "MT") with false. change (String.eqb "FR" "FR") with true.
  cbv iota.
  set (a := Math_max 0 _). set (b := Math_max 0 _). clearbody a b.
  intros Ha Hb1 Hb2. unfold leb. qdecide; split; qlra.
Qed.

Lemma france_corporate_threshold_cliff_witness :
  netProfit (calculateCorporateTax "FR" (set_income initial_form (Parsed 45000)))
  < netProfit (calculateCorporateTax "FR" (set_income initial_form (Parsed 42500))) /\
  corporateTax (calculateCorporateTax "FR" (set_income initial_form (Parsed 42500))) + 4250
  < corporateTax (calculateCorporateTax "FR" (set_income initial_form (Parsed 45000))).
Proof.
  apply france_corporate_threshold_cliff; vm_compute; reflexivity.
Defined.

(** X10: the generic income tax is a cliff at 50,000: with at most 16
    dependents, an income between 50,000 and 57,142 pays over 5,000 more
    tax than an income of exactly 50,000 and leaves a smaller net income. *)
Theorem generic_rate_cliff (j : string) (x : Q) (m : bool) (d : Z) :
  (0 <= d <= 16)%Z -> 50000 < x -> x < 57142 ->
  exists at_limit above,
    calculateGenericIncomeTax j 50000 m d = Returns at_limit /\
    calculateGenericIncomeTax j x m d = Returns above /\
    totalTax at_limit + 5000 < totalTax above /\
    netIncome above < netIncome at_limit.
Proof.
  intros [Hd0 Hd1] Hx1 Hx2. unfold calculateGenericIncomeTax.
  eexists. eexists. split; [reflexivity|]. split; [reflexivity|].
  cbn [totalTax netIncome].
  pose proof (inject_Z_nonneg d Hd0) as Hq0.
  assert (Hq1 : inject_Z d <= 16) by (change 16 with (inject_Z 16); now rewrite <- Zle_Qle).
  generalize dependent (inject_Z d). intros dq Hq0 Hq1.
  unfold leb, Math_max. destruct m; qdecide; split; qlra.
Qed.

Lemma generic_rate_cliff_witness :
  exists at_limit above,
    calculateGenericIncomeTax "DE" 50000 false 0 = Returns at_limit /\
    calculateGenericIncomeTax "DE" 52000 false 0 = Returns above /\
    totalTax at_limit + 5000 < totalTax above /\
    netIncome above < netIncome at_limit.
Proof.
  apply generic_rate_cliff; [lia | reflexivity | reflexivity].
Defined.

(** X11: VAT is additive in the net amount, for the VAT itself and for the
    total with VAT; the total is the net amount times one plus the rate in
    percent, and with a rate field that does not parse it is the net
    amount. *)
Theorem vat_additive (j : string) (f : FormData) (a b : Q) (rate : parsed Q) :
  let vat amount := calculateVAT j (set_vat f (Parsed amount) rate) in
  vat_vatAmount (vat (a + b)) == vat_vatAmount (vat a) + vat_vatAmount (vat b) /\
  totalAmount (vat (a + b)) == totalAmount (vat a) + totalAmount (vat b) /\
  totalAmount (vat a) == a * (1 + float_or_zero rate / 100) /\
  totalAmount (calculateVAT j (set_vat f (Parsed a) NaN)) == a.
Proof.
  intro vat. subst vat. unfold calculateVAT.
  cbn [vat_vatAmount totalAmount vatAmount vatRate set_vat].
  rewrite !float_or_zero_Parsed.
  split; [ring|]. split; [ring|]. split; [ring|].
  cbn [float_or_zero]. unfold Qdiv. ring.
Qed.

(** ** The edge function as marginal evaluation *)

Section EdgeTotal.

Import IncomeTaxFunction.

Variable base : Q.

Lemma spec_width_nonneg p u : 0 <= spec_width base p u.
Proof. destruct u; apply Math_max_l. Qed.

Lemma spec_edge_total_above brackets :
  forall p, base <= p -> ordered p brackets -> spec_edge_total base p brackets == 0.
Proof.
  induction brackets as [|b brackets IH]; intros p Hp Hord; simpl; [reflexivity|].
  simpl in Hord. destruct (limit b) as [l|]; simpl.
  - destruct Hord as [Hl Hord]. rewrite (IH l) by (lra || assumption).
    assert (Hw : Math_max 0 (Math_min (Math_min base l - p) (l - p)) == 0)
      by (unfold Math_max, Math_min; qcase; lra).
    rewrite Hw. ring.
  - assert (Hw : Math_max 0 (base - p) == 0) by (unfold Math_max; qcase; lra).
    rewrite Hw. ring.
Qed.

Lemma edge_tax_follows_spec brackets :
  forall p remaining t items,
    ordered p brackets ->
    (base <= p /\ remaining <= 0) \/ (p < base /\ remaining == base - p) ->
    exists t' items',
      bracket_loop base (Finite p) brackets remaining t items = Returns (t', items') /\
      t' == t + spec_edge_total base p brackets.
Proof.
  induction brackets as [|b brackets IH]; intros p r t items Hord Hinv.
  - exists t, items. split; [reflexivity | simpl; ring].
  - destruct Hinv as [[Hp Hr] | [Hp Hr]].
    { exists t, items. rewrite edge_loop_break by exact Hr.
      rewrite spec_edge_total_above by assumption. split; [reflexivity | ring]. }
    simpl. simpl in Hord.
    assert (Hpos : leb r 0 = false) by (unfold leb; apply leb_false; lra).
    rewrite Hpos.
    destruct (limit b) as [l|] eqn:Hl; simpl.
    + destruct Hord as [Hpl Hord].
      assert (Hw : Math_min r (l - p)
                   == Math_max 0 (Math_min (Math_min base l - p) (l - p)))
        by (unfold Math_max, Math_min; qcase; lra).
      assert (Hnext : (base <= l /\ r - Math_min r (l - p) <= 0) \/
                      (l < base /\ r - Math_min r (l - p) == base - l))
        by (unfold Math_min; qcase; [left | right]; split; lra).
      destruct (gtb (Math_min r (l - p)) 0) eqn:Hgt.
      * match goal with
        | |- context [bracket_loop base (Finite l) brackets ?r' ?t1 ?items1] =>
            destruct (IH l r' t1 items1 Hord Hnext) as (t' & items' & Hloop & Ht)
        end.
        exists t', items'. split; [exact Hloop|]. rewrite Ht, Hw. ring.
      * destruct (IH l (r - Math_min r (l - p)) t items Hord Hnext)
          as (t' & items' & Hloop & Ht).
        exists t', items'. split; [exact Hloop|]. rewrite Ht.
        apply gtb_false in Hgt.
        assert (H0 : Math_max 0 (Math_min (Math_min base l - p) (l - p)) == 0).
        { pose proof (Math_max_l 0 (Math_min (Math_min base l - p) (l - p))). lra. }
        rewrite H0. ring.
    + assert (Hgt : gtb r 0 = true) by (apply gtb_true; lra).
      rewrite Hgt. rewrite edge_loop_break by lra.
      eexists. eexists. split; [reflexivity|].
      assert (Hw : Math_max 0 (base - p) == r) by (unfold Math_max; qcase; lra).
      rewrite Hw. ring.
Qed.

Lemma spec_widths_sum brackets :
  forall p, ordered p brackets -> unbounded brackets ->
  Qsum (spec_widths base p brackets) == Math_max 0 (base - p).
Proof.
  induction brackets as [|b brackets IH]; intros p Hord Hunb; [contradiction|].
  simpl in *. destruct (limit b) as [l|]; simpl.
  - destruct Hord as [Hl Hord]. fold (Qsum (spec_widths base l brackets)).
    rewrite (IH l Hord Hunb). unfold Math_max, Math_min. qcase; lra.
  - lra.
Qed.

Lemma Qsum_filter_positive ws :
  Forall (fun w => 0 <= w) ws -> Qsum (filter positive ws) == Qsum ws.
Proof.
  induction 1 as [|w ws Hw _ IH]; simpl; [reflexivity|].
  fold (Qsum ws). destruct (positive w) eqn:Hp; simpl.
  - fold (Qsum (filter positive ws)). now rewrite IH.
  - apply gtb_false in Hp. rewrite IH. lra.
Qed.

Lemma spec_widths_nonneg brackets :
  forall p, Forall (fun w => 0 <= w) (spec_widths base p brackets).
Proof.
  induction brackets as [|b brackets IH]; intro p; simpl; [constructor|].
  constructor; [apply spec_width_nonneg|]. destruct (limit b); [apply IH | constructor].
Qed.

Lemma Qsum_Forall2 items ws :
  Forall2 (fun item w => taxable_amount item == w) items ws ->
  Qsum (map taxable_amount items) == Qsum ws.
Proof.
  induction 1 as [|item w items ws Hw _ IH]; simpl; [reflexivity|].
  fold (Qsum (map taxable_amount items)). fold (Qsum ws). now rewrite Hw, IH.
Qed.

End EdgeTotal.

(** X12: on every table with limits in increasing order the loop of the
    edge function is the marginal evaluation: it returns, its tax is the sum
    over the brackets of width times rate, its breakdown sums to that tax
    and lists the widths that are not zero, and on a table with an
    unbounded bracket the taxable amounts of the breakdown add up to the
    income. *)
Theorem edge_loop_is_marginal_evaluation
    (base : Q) (brackets : list IncomeTaxFunction.Bracket) :
  ordered 0 brackets ->
  exists t items,
    IncomeTaxFunction.bracket_loop base (Finite 0) brackets base 0 [] = Returns (t, items) /\
    t == spec_edge_total base 0 brackets /\
    IncomeTaxFunction.breakdown_total items == t /\
    Forall2 (fun item w => IncomeTaxFunction.taxable_amount item == w) items
      (filter positive (spec_widths base 0 brackets)) /\
    (unbounded brackets -> 0 <= base ->
     Qsum (map IncomeTaxFunction.taxable_amount items) == base).
Proof.
  intro Hord.
  assert (Hinv : (base <= 0 /\ base <= 0) \/ (0 < base /\ base == base - 0)).
  { destruct (Qlt_le_dec 0 base); [right | left]; split; lra. }
  destruct (edge_tax_follows_spec base brackets 0 base 0 [] Hord Hinv)
    as (t & items & Hloop & Ht).
  destruct (edge_widths_follow_spec base brackets 0 base 0 [] Hord Hinv)
    as (t0 & new & Hloop' & Hall).
  rewrite Hloop in Hloop'. simpl in Hloop'. injection Hloop' as <- <-.
  exists t, items. split; [exact Hloop|]. split; [rewrite Ht; ring|].
  split; [|split].
  - apply (EdgeLoop.edge_loop_consistent _ _ _ _ _ _ _ _ Hloop). reflexivity.
  - exact Hall.
  - intros Hunb Hbase. rewrite (Qsum_Forall2 _ _ Hall).
    rewrite Qsum_filter_positive by apply spec_widths_nonneg.
    rewrite (spec_widths_sum base brackets 0 Hord Hunb).
    unfold Math_max. qcase; lra.
Qed.

Lemma edge_loop_is_marginal_evaluation_witness :
  exists t items,
    IncomeTaxFunction.bracket_loop 45000 (Finite 0) IncomeTaxFunction.single_brackets
      45000 0 [] = Returns (t, items) /\
    t == spec_edge_total 45000 0 IncomeTaxFunction.single_brackets /\
    IncomeTaxFunction.breakdown_total items == t /\
    Forall2 (fun item w => IncomeTaxFunction.taxable_amount item == w) items
      (filter positive (spec_widths 45000 0 IncomeTaxFunction.single_brackets)) /\
    (unbounded IncomeTaxFunction.single_brackets -> 0 <= 45000 ->
     Qsum (map IncomeTaxFunction.taxable_amount items) == 45000).
Proof.
  apply edge_loop_is_marginal_evaluation.
  simpl. repeat split; (vm_compute; discriminate).
Defined.

(** ** The edge function on its two tables *)

Lemma round2_mono a b : a <= b -> IncomeTaxFunction.round2 a <= IncomeTaxFunction.round2 b.
Proof.
  intro Hab. unfold IncomeTaxFunction.round2, Math_round.
  assert (Hf : (Qfloor (a * 100 + (1 # 2)) <= Qfloor (b * 100 + (1 # 2)))%Z)
    by (apply Qfloor_resp_le; lra).
  rewrite Zle_Qle in Hf.
  set (fa := inject_Z (Qfloor (a * 100 + (1 # 2)))) in *.
  set (fb := inject_Z (Qfloor (b * 100 + (1 # 2)))) in *.
  qlra.
Qed.

Lemma round2_compat a b : a == b -> IncomeTaxFunction.round2 a == IncomeTaxFunction.round2 b.
Proof.
  intro Hab. apply Qle_antisym; apply round2_mono; lra.
Qed.

Lemma Qfloor_shift q (n : Z) : Qfloor (q + inject_Z n) = (Qfloor q + n)%Z.
Proof.
  pose proof (Qfloor_le q) as Hlo. pose proof (Qlt_floor q) as Hhi.
  pose proof (Qfloor_le (q + inject_Z n)) as Hlo'.
  pose proof (Qlt_floor (q + inject_Z n)) as Hhi'.
  rewrite inject_Z_plus in Hhi, Hhi'. change (inject_Z 1) with 1 in *.
  set (k := Qfloor q) in *. set (k' := Qfloor (q + inject_Z n)) in *.
  assert (H1 : inject_Z k' < inject_Z (k + n + 1)).
  { rewrite !inject_Z_plus. change (inject_Z 1) with 1. lra. }
  assert (H2 : inject_Z (k + n + - 1) < inject_Z k').
  { rewrite !inject_Z_plus. change (inject_Z (- 1)) with (- (1)). lra. }
  rewrite <- Zlt_Qlt in H1, H2. lia.
Qed.

(** Rounding to cents leaves whole cents alone and commutes with adding
    them. *)
Lemma round2_shift t (n : Z) :
  IncomeTaxFunction.round2 (t + inject_Z n / 100)
  == IncomeTaxFunction.round2 t + inject_Z n / 100.
Proof.
  unfold IncomeTaxFunction.round2, Math_round.
  assert (E : (t + inject_Z n / 100) * 100 + (1 # 2) == t * 100 + (1 # 2) + inject_Z n)
    by field.
  rewrite (Qfloor_comp _ _ E), Qfloor_shift, inject_Z_plus. field.
Qed.

Lemma round2_cents (n : Z) : IncomeTaxFunction.round2 (inject_Z n / 100) == inject_Z n / 100.
Proof.
  assert (E : inject_Z n / 100 == 0 + inject_Z n / 100) by ring.
  rewrite (round2_compat _ _ E), round2_shift.
  assert (E0 : IncomeTaxFunction.round2 0 == 0) by (vm_compute; reflexivity).
  rewrite E0. ring.
Qed.

Lemma spec_width_mono a b p u : a <= b -> spec_width a p u <= spec_width b p u.
Proof.
  intro Hab. destruct u; simpl; unfold Math_max, Math_min; qcase; lra.
Qed.

Lemma spec_edge_total_mono a b brackets :
  forallb (fun br => leb 0 (IncomeTaxFunction.rate br)) brackets = true ->
  a <= b ->
  forall p, spec_edge_total a p brackets <= spec_edge_total b p brackets.
Proof.
  intros Hr Hab. induction brackets as [|br brackets IH]; intro p; simpl; [lra|].
  simpl in Hr. apply andb_true_iff in Hr as [Hr0 Hr]. qhyps.
  pose proof (spec_width_mono a b p (IncomeTaxFunction.limit br) Hab) as Hw.
  pose proof (Qmult_le_compat_r _ _ _ Hw Hr0) as Hm.
  destruct (IncomeTaxFunction.limit br) as [l|].
  - specialize (IH Hr l). lra.
  - lra.
Qed.

Lemma edge_tables_ordered status :
  ordered 0 (if String.eqb status "single"
             then IncomeTaxFunction.single_brackets
             else IncomeTaxFunction.married_brackets).
Proof.
  destruct (String.eqb status "single"); simpl; repeat split; (vm_compute; discriminate).
Qed.

(** What the edge function answers to a positive income. *)
Lemma edge_answer x status :
  0 < x ->
  let brackets := if String.eqb status "single"
                  then IncomeTaxFunction.single_brackets
                  else IncomeTaxFunction.married_brackets in
  exists t r,
    t == spec_edge_total x 0 brackets /\
    IncomeTaxFunction.handler (income_request x status)
    = Returns (IncomeTaxFunction.Ok (Some r)) /\
    IncomeTaxFunction.tax_due r = IncomeTaxFunction.round2 t /\
    IncomeTaxFunction.effective_rate r = IncomeTaxFunction.round2 (t / x * 100).
Proof.
  intros Hx brackets.
  assert (Hnz : ~ x == 0) by (intro H0; rewrite H0 in Hx; lra).
  destruct (EdgeLoop.edge_income_tax_returns x status Hnz) as (t & items & Hloop & _ & Hr).
  assert (Hinv : (x <= 0 /\ x <= 0) \/ (0 < x /\ x == x - 0)) by (right; split; lra).
  destruct (edge_tax_follows_spec x brackets 0 x 0 [] (edge_tables_ordered status) Hinv)
    as (t' & items' & Hloop' & Ht).
  fold brackets in Hloop. rewrite Hloop in Hloop'. injection Hloop' as <- <-.
  exists t. eexists. split; [rewrite Ht; ring|].
  unfold income_request. rewrite (handler_positive x status Hx), Hr.
  split; [reflexivity|]. split; reflexivity.
Qed.

(** Unfolds the marginal evaluation over one of the two tables into its
    comparisons. *)
Ltac edge_total :=
  unfold IncomeTaxFunction.single_brackets, IncomeTaxFunction.married_brackets in *;
  cbn [spec_edge_total spec_width IncomeTaxFunction.limit IncomeTaxFunction.rate] in *;
  unfold Math_max, Math_min in *.

(** X13: the tax of the edge function does not decrease when the income
    grows, for every marital status. *)
Theorem edge_tax_monotone (a b : Q) (status : string) :
  0 < a -> a <= b ->
  exists ra rb,
    IncomeTaxFunction.handler (income_request a status)
    = Returns (IncomeTaxFunction.Ok (Some ra)) /\
    IncomeTaxFunction.handler (income_request b status)
    = Returns (IncomeTaxFunction.Ok (Some rb)) /\
    IncomeTaxFunction.tax_due ra <= IncomeTaxFunction.tax_due rb.
Proof.
  intros Ha Hab.
  destruct (edge_answer a status Ha) as (ta & ra & Hta & Hra & Hda & _).
  destruct (edge_answer b status ltac:(lra)) as (tb & rb & Htb & Hrb & Hdb & _).
  exists ra, rb. split; [exact Hra|]. split; [exact Hrb|].
  rewrite Hda, Hdb. apply round2_mono. rewrite Hta, Htb.
  apply spec_edge_total_mono; [|exact Hab].
  now destruct (String.eqb status "single").
Qed.

Lemma edge_tax_monotone_witness :
  exists ra rb,
    IncomeTaxFunction.handler (income_request 20000 "single")
    = Returns (IncomeTaxFunction.Ok (Some ra)) /\
    IncomeTaxFunction.handler (income_request 70000 "single")
    = Returns (IncomeTaxFunction.Ok (Some rb)) /\
    IncomeTaxFunction.tax_due ra <= IncomeTaxFunction.tax_due rb.
Proof.
  apply edge_tax_monotone; [reflexivity | vm_compute; discriminate].
Defined.

(** The answer of the edge function to a positive income, with the tax of
    its loop before the rounding. *)
Lemma edge_answer_raw x status :
  0 < x ->
  let brackets := if String.eqb status "single"
                  then IncomeTaxFunction.single_brackets
                  else IncomeTaxFunction.married_brackets in
  exists t items r,
    IncomeTaxFunction.bracket_loop x (Finite 0) brackets x 0 [] = Returns (t, items) /\
    t == spec_edge_total x 0 brackets /\
    IncomeTaxFunction.handler (income_request x status)
    = Returns (IncomeTaxFunction.Ok (Some r)) /\
    IncomeTaxFunction.tax_due r = IncomeTaxFunction.round2 t.
Proof.
  intros Hx brackets.
  assert (Hnz : ~ x == 0) by (intro H0; rewrite H0 in Hx; lra).
  destruct (EdgeLoop.edge_income_tax_returns x status Hnz) as (t & items & Hloop & _ & Hr).
  assert (Hinv : (x <= 0 /\ x <= 0) \/ (0 < x /\ x == x - 0)) by (right; split; lra).
  destruct (edge_tax_follows_spec x brackets 0 x 0 [] (edge_tables_ordered status) Hinv)
    as (t' & items' & Hloop' & Ht).
  fold brackets in Hloop. pose proof Hloop as Hloop0.
  rewrite Hloop in Hloop'. injection Hloop' as <- <-.
  exists t, items. eexists. split; [exact Hloop0|]. split; [rewrite Ht; ring|].
  unfold income_request. rewrite (handler_positive x status Hx), Hr.
  split; reflexivity.
Qed.

(** X14: in the edge function the tax of the loop for a taxpayer of any
    marital status is at most the one for a single taxpayer with the same
    income, and at most 1,210 less; the two amounts the result reports,
    each rounded to cents, are in the same order and at most 1,210.01
    apart. *)
Theorem edge_married_at_most_single (x : Q) (status : string) :
  0 < x ->
  exists r single t t_single items items_single,
    IncomeTaxFunction.handler (income_request x status)
    = Returns (IncomeTaxFunction.Ok (Some r)) /\
    IncomeTaxFunction.handler (income_request x "single")
    = Returns (IncomeTaxFunction.Ok (Some single)) /\
    IncomeTaxFunction.bracket_loop x (Finite 0)
      (if String.eqb status "single"
       then IncomeTaxFunction.single_brackets
       else IncomeTaxFunction.married_brackets) x 0 []
    = Returns (t, items) /\
    IncomeTaxFunction.bracket_loop x (Finite 0) IncomeTaxFunction.single_brackets x 0 []
    = Returns (t_single, items_single) /\
    IncomeTaxFunction.tax_due r = IncomeTaxFunction.round2 t /\
    IncomeTaxFunction.tax_due single = IncomeTaxFunction.round2 t_single /\
    t <= t_single /\
    t_single <= t + 1210 /\
    IncomeTaxFunction.tax_due r <= IncomeTaxFunction.tax_due single /\
    IncomeTaxFunction.tax_due single <= IncomeTaxFunction.tax_due r + 1210.01.
Proof.
  intros Hx.
  destruct (edge_answer_raw x status Hx) as (t & items & r & Hloop & Ht & Hr & Hd).
  destruct (edge_answer_raw x "single" Hx) as (ts & itemss & rs & Hloops & Hts & Hrs & Hds).
  change (String.eqb "single" "single") with true in Hts, Hloops. cbv iota in Hts, Hloops.
  exists r, rs, t, ts, items, itemss.
  split; [exact Hr|]. split; [exact Hrs|]. split; [exact Hloop|]. split; [exact Hloops|].
  split; [exact Hd|]. split; [exact Hds|].
  assert (Hcmp : t <= ts /\ ts <= t + 1210).
  { rewrite Ht, Hts. clear. destruct (String.eqb status "single"); [split; lra|].
    edge_total. qdecide; split; qlra. }
  split; [tauto|]. split; [tauto|]. rewrite Hd, Hds.
  split; [apply round2_mono; tauto|].
  assert (E : IncomeTaxFunction.round2 (t + 1210) == IncomeTaxFunction.round2 t + 1210).
  { assert (E1 : t + 1210 == t + inject_Z 121000 / 100) by (vm_compute inject_Z; field).
    rewrite (round2_compat _ _ E1), round2_shift. vm_compute inject_Z. field. }
  pose proof (round2_mono ts (t + 1210) (proj2 Hcmp)) as Hm.
  rewrite E in Hm. lra.
Qed.

Lemma edge_married_at_most_single_witness :
  exists r single t t_single items items_single,
    IncomeTaxFunction.handler (income_request 30000 "married")
    = Returns (IncomeTaxFunction.Ok (Some r)) /\
    IncomeTaxFunction.handler (income_request 30000 "single")
    = Returns (IncomeTaxFunction.Ok (Some single)) /\
    IncomeTaxFunction.bracket_loop 30000 (Finite 0)
      (if String.eqb "married" "single"
       then IncomeTaxFunction.single_brackets
       else IncomeTaxFunction.married_brackets) 30000 0 []
    = Returns (t, items) /\
    IncomeTaxFunction.bracket_loop 30000 (Finite 0) IncomeTaxFunction.single_brackets
      30000 0 []
    = Returns (t_single, items_single) /\
    IncomeTaxFunction.tax_due r = IncomeTaxFunction.round2 t /\
    IncomeTaxFunction.tax_due single = IncomeTaxFunction.round2 t_single /\
    t <= t_single /\
    t_single <= t + 1210 /\
    IncomeTaxFunction.tax_due r <= IncomeTaxFunction.tax_due single /\
    IncomeTaxFunction.tax_due single <= IncomeTaxFunction.tax_due r + 1210.01.
Proof.
  apply edge_married_at_most_single. reflexivity.
Defined.

(** X15: for a positive income the edge function answers with a tax
    between 0 and the income and an effective rate between 0 and 35; the
    tax is 0 up to an income of 9,100, and up to 12,700 for a marital status
    other than single. *)
Theorem edge_tax_bounds (x : Q) (status : string) :
  0 < x ->
  exists r,
    IncomeTaxFunction.handler (income_request x status)
    = Returns (IncomeTaxFunction.Ok (Some r)) /\
    0 <= IncomeTaxFunction.tax_due r /\
    IncomeTaxFunction.tax_due r <= x /\
    0 <= IncomeTaxFunction.effective_rate r /\
    IncomeTaxFunction.effective_rate r <= 35 /\
    (x <= 9100 -> IncomeTaxFunction.tax_due r == 0) /\
    (x <= 12700 -> status <> "single" -> IncomeTaxFunction.tax_due r == 0).
Proof.
  intro Hx.
  destruct (edge_answer x status Hx) as (t & r & Ht & Hr & Hd & He).
  exists r. split; [exact Hr|]. rewrite Hd, He.
  assert (Hb : 0 <= t /\ t <= Math_max 0 (x - 9100) * (35 / 100) /\
               (x <= 12700 -> status <> "single" -> t == 0)).
  { rewrite Ht. clear. destruct (String.eqb_spec status "single") as [-> | Hs].
    - edge_total. qdecide; repeat split; intros; try contradiction; qlra.
    - edge_total. qdecide; repeat split; intros; qlra. }
  destruct Hb as (H0 & H1 & H2).
  assert (R0 : IncomeTaxFunction.round2 0 == 0) by (vm_compute; reflexivity).
  assert (R35 : IncomeTaxFunction.round2 35 == 35) by (vm_compute; reflexivity).
  pose proof (EdgeLoop.round2_close t) as [_ Hclose].
  pose proof (round2_mono 0 t H0) as Hlo.
  assert (Hrate : 0 <= t / x * 100 /\ t / x * 100 <= 35).
  { apply rate_of_quotient; [exact Hx | exact H0 |].
    revert H1. unfold Math_max. qcase; qlra. }
  pose proof (round2_mono 0 (t / x * 100) (proj1 Hrate)) as Hr0.
  pose proof (round2_mono (t / x * 100) 35 (proj2 Hrate)) as Hr35.
  split; [lra|]. split.
  { destruct (Qlt_le_dec 9100 x) as [Hbig | Hsmall].
    - revert H1. unfold Math_max. qcase; qlra.
    - assert (E : t == 0) by (revert H1; unfold Math_max; qcase; qlra).
      rewrite (round2_compat _ _ E). lra. }
  split; [lra|]. split; [lra|]. split.
  - intro Hsmall. assert (E : t == 0) by (revert H1; unfold Math_max; qcase; qlra).
    rewrite (round2_compat _ _ E). exact R0.
  - intros Hsmall Hs. rewrite (round2_compat _ _ (H2 Hsmall Hs)). exact R0.
Qed.

Lemma edge_tax_bounds_witness :
  exists r,
    IncomeTaxFunction.handler (income_request 9000 "single")
    = Returns (IncomeTaxFunction.Ok (Some r)) /\
    IncomeTaxFunction.tax_due r == 0.
Proof.
  destruct (edge_tax_bounds 9000 "single") as (r & Hr & _ & _ & _ & _ & Hfree & _);
    [reflexivity|].
  exists r. split; [exact Hr|]. apply Hfree. vm_compute. discriminate.
Defined.

(** X16: for a single taxpayer without dependents the tax of the edge
    function is the Maltese total of the component rounded to cents, except
    on the euro above a bracket limit (9,100, 14,500, 19,500, 60,000), where
    the component is lower by at most 0.35. *)
Theorem component_and_edge_function_agree (x : Q) :
  0 < x ->
  exists rc re,
    calculateMaltaIncomeTax x false 0 = Returns rc /\
    IncomeTaxFunction.handler (income_request x "single")
    = Returns (IncomeTaxFunction.Ok (Some re)) /\
    IncomeTaxFunction.round2 (totalTax rc) <= IncomeTaxFunction.tax_due re /\
    IncomeTaxFunction.tax_due re <= IncomeTaxFunction.round2 (totalTax rc) + 0.35 /\
    ((x <= 9100 \/ 9101 < x) -> (x <= 14500 \/ 14501 < x) ->
     (x <= 19500 \/ 19501 < x) -> (x <= 60000 \/ 60001 < x) ->
     IncomeTaxFunction.tax_due re == IncomeTaxFunction.round2 (totalTax rc)).
Proof.
  intro Hx.
  destruct (calculateMaltaIncomeTax_returns x false 0) as (rc & Hrc & Tc & _).
  destruct (edge_answer x "single" Hx) as (t & re & Ht & Hre & Hd & _).
  exists rc, re. split; [exact Hrc|]. split; [exact Hre|]. rewrite Hd.
  change (String.eqb "single" "single") with true in Ht. cbv iota in Ht.
  assert (Hcmp : totalTax rc <= t /\ t <= totalTax rc + 0.35 /\
                 ((x <= 9100 \/ 9101 < x) -> (x <= 14500 \/ 14501 < x) ->
                  (x <= 19500 \/ 19501 < x) -> (x <= 60000 \/ 60001 < x) ->
                  t == totalTax rc)).
  { rewrite Tc, Ht. clear - Hx. change (inject_Z 0) with 0.
    loop_tax. edge_total.
    qdecide; repeat split; try qlra;
      intros [H1 | H1] [H2 | H2] [H3 | H3] [H4 | H4]; qlra. }
  destruct Hcmp as (Hlo & Hhi & Heq).
  split; [now apply round2_mono|]. split.
  - assert (E : IncomeTaxFunction.round2 (totalTax rc + 0.35)
                == IncomeTaxFunction.round2 (totalTax rc) + 0.35).
    { assert (E1 : totalTax rc + 0.35 == totalTax rc + inject_Z 35 / 100)
        by (vm_compute inject_Z; field).
      rewrite (round2_compat _ _ E1), round2_shift. vm_compute inject_Z. field. }
    rewrite <- E. now apply round2_mono.
  - intros H1 H2 H3 H4. apply round2_compat. now apply Heq.
Qed.

Lemma component_and_edge_function_agree_witness :
  exists rc re,
    calculateMaltaIncomeTax 30000 false 0 = Returns rc /\
    IncomeTaxFunction.handler (income_request 30000 "single")
    = Returns (IncomeTaxFunction.Ok (Some re)) /\
    IncomeTaxFunction.tax_due re == IncomeTaxFunction.round2 (totalTax rc).
Proof.
  destruct (component_and_edge_function_agree 30000) as (rc & re & Hc & He & _ & _ & Heq);
    [reflexivity|].
  exists rc, re. split; [exact Hc|]. split; [exact He|].
  apply Heq; [right; reflexivity | right; reflexivity | right; reflexivity |].
  left. vm_compute. discriminate.
Defined.




(** ** The breakdown of the component *)

Lemma bracket_loop_snd x brackets :
  forallb well_formed brackets = true ->
  forall st,
    map range (snd (fold_left (bracket_step x) brackets st))
    = map range (snd st)
      ++ map (fun b => (min b, max b)) (filter (fun b => gtb x (min b)) brackets) /\
    (Forall (fun item => 0 < taxableAmount item) (snd st) ->
     Forall (fun item => 0 < taxableAmount item)
       (snd (fold_left (bracket_step x) brackets st))).
Proof.
  induction brackets as [|b brackets IH]; intros Hwf st; cbn [fold_left filter map].
  - rewrite app_nil_r. split; [reflexivity | trivial].
  - simpl in Hwf. apply andb_true_iff in Hwf as [Hb Hwf].
    destruct (IH Hwf (bracket_step x st b)) as [Hmap Hall]. rewrite Hmap.
    destruct st as [t items]. unfold bracket_step in *.
    destruct (gtb x (min b)) eqn:Hx.
    + apply gtb_true in Hx. pose proof (width_positive x b Hb Hx) as Hw.
      pose proof Hw as Hw'. apply gtb_true in Hw'. rewrite Hw' in *.
      cbn [snd map] in *. rewrite map_app, <- app_assoc. split; [reflexivity|].
      intro Hitems. apply Hall. apply Forall_app. split; [exact Hitems|].
      constructor; [exact Hw | constructor].
    + split; [reflexivity | exact Hall].
Qed.

(** X18: on a well-formed table the breakdown of the component has one
    entry for each bracket whose [min] is below the base, in the order of
    the table, each with a positive taxable amount; it is never longer than
    the table, and it is empty for a base of 0 or less when no [min] is
    negative. *)
Theorem breakdown_lists_entered_brackets (x : Q) (brackets : list Bracket) :
  forallb well_formed brackets = true ->
  let items := snd (bracket_loop x brackets) in
  map range items
  = map (fun b => (min b, max b)) (filter (fun b => gtb x (min b)) brackets) /\
  Forall (fun item => 0 < taxableAmount item) items /\
  (List.length items <= List.length brackets)%nat /\
  (x <= 0 -> forallb (fun b => leb 0 (min b)) brackets = true -> items = []).
Proof.
  intros Hwf items. subst items. unfold bracket_loop.
  destruct (bracket_loop_snd x brackets Hwf (0, [])) as [Hmap Hall].
  cbn [snd map app] in Hmap. split; [exact Hmap|]. split; [apply Hall; constructor|].
  split.
  - rewrite <- (length_map range), Hmap, length_map. apply filter_length_le.
  - intros Hx Hmin. now rewrite bracket_loop_below.
Qed.

Lemma breakdown_lists_entered_brackets_witness :
  map range (snd (bracket_loop 16000 malta_brackets))
  = map (fun b => (min b, max b)) (filter (fun b => gtb 16000 (min b)) malta_brackets).
Proof.
  apply (breakdown_lists_entered_brackets 16000 malta_brackets). reflexivity.
Defined.

(** X19: for a property value that is not negative the property tax is
    not negative and at most 5% of the value, a first-time buyer never pays
    more than another buyer, and the tax does not decrease when the value
    grows. *)
Theorem property_tax_order (j : string) (f : FormData) (v w : Q) :
  0 <= v -> v <= w ->
  let tax value firstTime :=
    propertyTax (calculatePropertyTax j (set_property f (Parsed value) firstTime)) in
  0 <= tax v true /\
  tax v true <= tax v false /\
  tax v false <= v * (5 / 100) /\
  tax v true <= tax w true /\
  tax v false <= tax w false.
Proof.
  intros Hv Hvw tax. subst tax. unfold calculatePropertyTax.
  cbn [propertyTax propertyValue isFirstTimeBuyer set_property].
  pose proof (float_or_zero_Parsed v) as Ev. pose proof (float_or_zero_Parsed w) as Ew.
  generalize dependent (float_or_zero (Parsed v)). intros v' Ev.
  generalize dependent (float_or_zero (Parsed w)). intros w' Ew.
  destruct (String.eqb j "MT"); repeat split; qlra.
Qed.

Lemma property_tax_order_witness :
  propertyTax (calculatePropertyTax "MT" (set_property initial_form (Parsed 200000) true))
  <= propertyTax (calculatePropertyTax "MT" (set_property initial_form (Parsed 200000) false)).
Proof.
  apply (property_tax_order "MT" initial_form 200000 300000); vm_compute; discriminate.
Defined.

(** ** The dispatcher *)

(** X20: [calculateTax] returns the error object exactly when the
    calculation type is none of income, vat, corporate and property, and
    then with the message "Invalid calculation type"; the other three types
    return the result of their function. *)
Theorem calculateTax_error_iff (j : string) (f : FormData) (t : string) :
  (is_error (calculateTax j f t) = true <->
   ~ In t ["income"; "vat"; "corporate"; "property"]) /\
  (is_error (calculateTax j f t) = true ->
   calculateTax j f t = ErrorResults "Invalid calculation type") /\
  calculateTax j f "vat" = VATResults (calculateVAT j f) /\
  calculateTax j f "corporate" = CorporateResults (calculateCorporateTax j f) /\
  calculateTax j f "property" = PropertyResults (calculatePropertyTax j f).
Proof.
  split; [|split; [|repeat split]].
  - split.
    + intros He Hin. simpl in Hin.
      destruct Hin as [<- | [<- | [<- | [<- | []]]]]; try discriminate.
      unfold calculateTax in He. simpl in He.
      pose proof (calculateIncomeTax_does_not_throw j f) as Hthrow.
      destruct (calculateIncomeTax j f); [discriminate | contradiction | discriminate].
    + intro Hnot. unfold calculateTax.
      destruct (String.eqb_spec t "income") as [-> | _];
        [exfalso; apply Hnot; simpl; tauto|].
      destruct (String.eqb_spec t "vat") as [-> | _];
        [exfalso; apply Hnot; simpl; tauto|].
      destruct (String.eqb_spec t "corporate") as [-> | _];
        [exfalso; apply Hnot; simpl; tauto|].
      destruct (String.eqb_spec t "property") as [-> | _];
        [exfalso; apply Hnot; simpl; tauto|].
      reflexivity.
  - unfold calculateTax.
    destruct (String.eqb t "income").
    + pose proof (calculateIncomeTax_does_not_throw j f) as Hthrow.
      destruct (calculateIncomeTax j f); simpl; try discriminate. contradiction.
    + destruct (String.eqb t "vat"); [discriminate|].
      destruct (String.eqb t "corporate"); [discriminate|].
      destruct (String.eqb t "property"); [discriminate | reflexivity].
Qed.

(** ** Tax-free bands and growth *)

(** X21: with a number of dependents that is not negative, the Maltese
    total is 0 for every income up to 9,101, and the French total is 0 for
    every income up to 10,778 per part. *)
Theorem component_tax_free_band (x : Q) (m : bool) (d : Z) :
  (0 <= d)%Z ->
  (x <= 9101 ->
   exists r, calculateMaltaIncomeTax x m d = Returns r /\ totalTax r == 0) /\
  (x <= 10778 * quotient_parts m d ->
   exists r, calculateFranceIncomeTax x m d = Returns r /\ totalTax r == 0).
Proof.
  intro Hd. split.
  - intro Hx. destruct (calculateMaltaIncomeTax_returns x m d) as (r & Er & Tr & _).
    exists r. split; [exact Er|]. rewrite Tr.
    pose proof (malta_allowances_nonneg m d Hd) as Hal.
    assert (Ht : fst (bracket_loop x malta_brackets) == 0)
      by (revert Hx; clear; loop_tax; intro Hx; qdecide; qlra).
    generalize dependent (fst (bracket_loop x malta_brackets)). intros t _ Ht.
    generalize dependent ((if m then 600 else 0) + inject_Z d * 300). intros al Hal.
    unfold Math_max. qcase; lra.
  - intro Hx. pose proof (quotient_parts_positive m d Hd) as Hp.
    assert (Hnz : ~ quotient_parts m d == 0) by (intro H0; rewrite H0 in Hp; lra).
    destruct (calculateFranceIncomeTax_returns x m d Hnz) as (r & Er & Tr & _).
    exists r. split; [exact Er|]. rewrite Tr.
    set (p := quotient_parts m d) in *.
    assert (Hq : x / p <= 10778) by (apply Qle_shift_div_r; lra).
    assert (Ht : fst (bracket_loop (x / p) france_brackets) == 0)
      by (revert Hq; generalize (x / p); clear; intros q Hq; loop_tax; qdecide; qlra).
    rewrite Ht. ring.
Qed.

Lemma component_tax_free_band_witness :
  exists r, calculateMaltaIncomeTax 9000 true 2 = Returns r /\ totalTax r == 0.
Proof.
  destruct (component_tax_free_band 9000 true 2) as [Hmalta _]; [lia|].
  apply Hmalta. vm_compute. discriminate.
Defined.

Lemma malta_tax_growth x y :
  x <= y ->
  fst (bracket_loop y malta_brackets) - fst (bracket_loop x malta_brackets)
  <= (y - x) * (35 / 100) + 1.
Proof.
  intro Hxy. loop_tax. qdecide; qlra.
Qed.

Lemma edge_tax_growth a b brackets :
  (brackets = IncomeTaxFunction.single_brackets \/
   brackets = IncomeTaxFunction.married_brackets) ->
  a <= b ->
  spec_edge_total b 0 brackets - spec_edge_total a 0 brackets <= (b - a) * (35 / 100).
Proof.
  intros [-> | ->] Hab; edge_total; qdecide; qlra.
Qed.

(** X22: the Maltese total grows with the income by at most 35% of the
    increase plus 1, the sum of the steps at the bracket limits. *)
Theorem malta_total_growth (x y : Q) (m : bool) (d : Z) :
  x <= y ->
  exists rx ry,
    calculateMaltaIncomeTax x m d = Returns rx /\
    calculateMaltaIncomeTax y m d = Returns ry /\
    totalTax ry - totalTax rx <= (y - x) * (35 / 100) + 1.
Proof.
  intro Hxy.
  destruct (calculateMaltaIncomeTax_returns x m d) as (rx & Ex & Tx & _).
  destruct (calculateMaltaIncomeTax_returns y m d) as (ry & Ey & Ty & _).
  exists rx, ry. split; [exact Ex|]. split; [exact Ey|]. rewrite Tx, Ty.
  pose proof (malta_tax_growth x y Hxy) as Hg.
  pose proof (bracket_loop_mono x y malta_brackets malta_brackets_well_formed Hxy
                (0, []) (0, []) ltac:(simpl; lra)) as Hm.
  fold (bracket_loop x malta_brackets) in Hm. fold (bracket_loop y malta_brackets) in Hm.
  generalize dependent (fst (bracket_loop x malta_brackets)). intros tx _.
  generalize dependent (fst (bracket_loop y malta_brackets)). intros ty _ Hg Hm.
  generalize ((if m then 600 else 0) + inject_Z d * 300). intro al.
  unfold Math_max. qcase; qlra.
Qed.

Lemma malta_total_growth_witness :
  exists rx ry,
    calculateMaltaIncomeTax 60001 false 0 = Returns rx /\
    calculateMaltaIncomeTax 60002 false 0 = Returns ry /\
    totalTax ry - totalTax rx <= (60002 - 60001) * (35 / 100) + 1.
Proof.
  apply malta_total_growth. vm_compute. discriminate.
Defined.

(** X23: the tax of the edge function grows with the income by at most
    35% of the increase, plus one cent of rounding: it has no step at a
    bracket limit. *)
Theorem edge_tax_growth_bound (a b : Q) (status : string) :
  0 < a -> a <= b ->
  exists ra rb,
    IncomeTaxFunction.handler (income_request a status)
    = Returns (IncomeTaxFunction.Ok (Some ra)) /\
    IncomeTaxFunction.handler (income_request b status)
    = Returns (IncomeTaxFunction.Ok (Some rb)) /\
    IncomeTaxFunction.tax_due rb - IncomeTaxFunction.tax_due ra
    <= (b - a) * (35 / 100) + (1 # 100).
Proof.
  intros Ha Hab.
  destruct (edge_answer a status Ha) as (ta & ra & Hta & Hra & Hda & _).
  destruct (edge_answer b status ltac:(lra)) as (tb & rb & Htb & Hrb & Hdb & _).
  exists ra, rb. split; [exact Hra|]. split; [exact Hrb|]. rewrite Hda, Hdb.
  assert (Hg : tb - ta <= (b - a) * (35 / 100)).
  { rewrite Hta, Htb. apply edge_tax_growth; [|exact Hab].
    destruct (String.eqb status "single"); [now left | now right]. }
  pose proof (EdgeLoop.round2_close ta) as [Ha1 Ha2].
  pose proof (EdgeLoop.round2_close tb) as [Hb1 Hb2].
  qlra.
Qed.

Lemma edge_tax_growth_bound_witness :
  exists ra rb,
    IncomeTaxFunction.handler (income_request 9100 "single")
    = Returns (IncomeTaxFunction.Ok (Some ra)) /\
    IncomeTaxFunction.handler (income_request 9101 "single")
    = Returns (IncomeTaxFunction.Ok (Some rb)) /\
    IncomeTaxFunction.tax_due rb - IncomeTaxFunction.tax_due ra
    <= (9101 - 9100) * (35 / 100) + (1 # 100).
Proof.
  apply edge_tax_growth_bound; [reflexivity | vm_compute; discriminate].
Defined.
